(** * DocuChat: the PDF question-answering pipeline of [pdf_utils.py]

    A shallow embedding of the functions of [pdf_utils.py] and the properties
    its specification states about them.

    - Python [str] values are lists of Unicode code points, [bytes] values are
      lists of [byte], Python integers are [Z].
    - The collaborators the module calls (PyMuPDF, the LangChain text
      splitter, the Pinecone index, the retriever, the chat model, Streamlit's
      secrets) are interfaces: records of functions that answer a call with a
      value or with a raised exception.
    - Every function that talks to a collaborator runs in the monad [M]: it
      threads the trace of the calls made so far and may raise.  [try_except]
      is Python's [try: ... except Exception as e: ...]. *)

From Stdlib Require Import List ZArith NArith QArith Lia Bool String Ascii.
From Stdlib.Strings Require Import Byte.
Import ListNotations.

Local Open Scope Z_scope.
Local Open Scope list_scope.

(* ================================================================== *)
(** * Python values *)

Module Py.

(** A character is a Unicode code point; a [str] is a sequence of them. *)
Definition char := N.
Definition str := list char.
Definition bytes := list byte.

(** [len(x)] of a list or a string. *)
Definition len {A : Type} (l : list A) : Z := Z.of_nat (List.length l).

(** Decoding of the UTF-8 source text of a literal: [pending] continuation
    bytes are still expected for the code point accumulated in [acc]. *)
Fixpoint utf8_decode (bs : list N) (pending : nat) (acc : N) : str :=
  match bs with
  | [] => []
  | b :: rest =>
      match pending with
      | O =>
          if (b <? 128)%N then b :: utf8_decode rest 0 0%N
          else if (b <? 224)%N then utf8_decode rest 1 (N.land b 31)
          else if (b <? 240)%N then utf8_decode rest 2 (N.land b 15)
          else utf8_decode rest 3 (N.land b 7)
      | S p =>
          let acc' := (acc * 64 + N.land b 63)%N in
          match p with
          | O => acc' :: utf8_decode rest 0 0%N
          | S _ => utf8_decode rest p acc'
          end
      end
  end.

(** A string literal of the source. *)
Definition lit (s : string) : str :=
  utf8_decode (map Byte.to_N (list_byte_of_string s)) 0 0%N.

Definition newline : char := 10%N.
Definition double_quote : char := 34%N.

(** [c.isspace()] for one character: CPython's [Py_UNICODE_ISSPACE]. *)
Definition isspace (c : char) : bool :=
  ((9 <=? c) && (c <=? 13) || (28 <=? c) && (c <=? 32)
   || (c =? 133) || (c =? 160) || (c =? 5760)
   || (8192 <=? c) && (c <=? 8202)
   || (c =? 8232) || (c =? 8233) || (c =? 8239) || (c =? 8287)
   || (c =? 12288))%N.

(** [s.split()] with no separator: the string is scanned once; [word] holds
    the characters of the token being read, a whitespace character ends it,
    and runs of whitespace produce no empty token. *)
Fixpoint split_scan (s : str) (word : str) : list str :=
  match s with
  | [] => match word with [] => [] | _ :: _ => [word] end
  | c :: rest =>
      if isspace c then
        match word with
        | [] => split_scan rest []
        | _ :: _ => word :: split_scan rest []
        end
      else split_scan rest (word ++ [c])
  end.

Definition split (s : str) : list str := split_scan s [].

Fixpoint dropwhile {A : Type} (p : A -> bool) (l : list A) : list A :=
  match l with
  | [] => []
  | x :: rest => if p x then dropwhile p rest else l
  end.

(** [s.lstrip()], [s.rstrip()] and [s.strip()] with no argument. *)
Definition lstrip (s : str) : str := dropwhile isspace s.
Definition rstrip (s : str) : str := rev (dropwhile isspace (rev s)).
Definition strip (s : str) : str := rstrip (lstrip s).

(** [sep.join(parts)]. *)
Fixpoint join (sep : str) (parts : list str) : str :=
  match parts with
  | [] => []
  | [p] => p
  | p :: rest => p ++ sep ++ join sep rest
  end.

Definition digit_char (d : N) : char := (48 + d)%N.

Fixpoint digits (u : Decimal.uint) : str :=
  match u with
  | Decimal.Nil => []
  | Decimal.D0 r => digit_char 0 :: digits r
  | Decimal.D1 r => digit_char 1 :: digits r
  | Decimal.D2 r => digit_char 2 :: digits r
  | Decimal.D3 r => digit_char 3 :: digits r
  | Decimal.D4 r => digit_char 4 :: digits r
  | Decimal.D5 r => digit_char 5 :: digits r
  | Decimal.D6 r => digit_char 6 :: digits r
  | Decimal.D7 r => digit_char 7 :: digits r
  | Decimal.D8 r => digit_char 8 :: digits r
  | Decimal.D9 r => digit_char 9 :: digits r
  end.

(** [str(n)] of an integer, as an f-string renders [{n}]. *)
Definition str_of_int (n : Z) : str :=
  match Z.to_int n with
  | Decimal.Pos u => digits u
  | Decimal.Neg u => 45%N :: digits u
  end.

Definition str_eqb (a b : str) : bool :=
  if list_eq_dec N.eq_dec a b then true else false.

(** An exception object: its class and what [str(e)] gives.  Every error a
    collaborator raises is an instance of [Exception]. *)
Record exn : Type := Exception { exn_class : string; exn_str : str }.

Definition ImportError (msg : str) : exn := Exception "ImportError" msg.
Definition ValueError (msg : str) : exn := Exception "ValueError" msg.
Definition KeyError (msg : str) : exn := Exception "KeyError" msg.

(** What a call gives: a value, or a raised exception. *)
Inductive outcome (A : Type) : Type :=
| Return (a : A)
| Raise (e : exn).
Arguments Return {A} a.
Arguments Raise {A} e.

(** The template syntax of [str.format]: literal text, [{name}] fields and
    the escapes [{{] and [}}].  Conversions and format specifications are
    not part of the model. *)
Inductive segment : Type :=
| Text (s : str)
| Field (name : str).

Definition open_brace : char := 123%N.
Definition close_brace : char := 125%N.

Definition flush_text (text : str) (segs : list segment) : list segment :=
  match text with
  | [] => segs
  | _ :: _ => Text text :: segs
  end.

(** [text] is the literal text read since the last field; [field] is the
    name being read when the scan is inside braces. *)
Fixpoint parse_template (t : str) (text : str) (field : option str)
  : outcome (list segment) :=
  match t with
  | [] =>
      match field with
      | Some _ => Raise (ValueError (lit "expected '}' before end of string"))
      | None => Return (flush_text text [])
      end
  | c :: rest =>
      match field with
      | Some name =>
          if (c =? close_brace)%N then
            match parse_template rest [] None with
            | Return segs => Return (Field name :: segs)
            | Raise e => Raise e
            end
          else parse_template rest text (Some (name ++ [c]))
      | None =>
          if (c =? open_brace)%N then
            match rest with
            | c' :: rest' =>
                if (c' =? open_brace)%N
                then parse_template rest' (text ++ [open_brace]) None
                else
                  match parse_template rest [] (Some []) with
                  | Return segs => Return (flush_text text segs)
                  | Raise e => Raise e
                  end
            | [] => Raise (ValueError (lit "Single '{' encountered in format string"))
            end
          else if (c =? close_brace)%N then
            match rest with
            | c' :: rest' =>
                if (c' =? close_brace)%N
                then parse_template rest' (text ++ [close_brace]) None
                else Raise (ValueError (lit "Single '}' encountered in format string"))
            | [] => Raise (ValueError (lit "Single '}' encountered in format string"))
            end
          else parse_template rest (text ++ [c]) None
      end
  end.

Fixpoint lookup (name : str) (kwargs : list (str * str)) : option str :=
  match kwargs with
  | [] => None
  | (k, v) :: rest => if str_eqb k name then Some v else lookup name rest
  end.

Fixpoint render (segs : list segment) (kwargs : list (str * str)) : outcome str :=
  match segs with
  | [] => Return []
  | Text s :: rest =>
      match render rest kwargs with
      | Return out => Return (s ++ out)
      | Raise e => Raise e
      end
  | Field name :: rest =>
      match lookup name kwargs with
      | None => Raise (KeyError name)
      | Some v =>
          match render rest kwargs with
          | Return out => Return (v ++ out)
          | Raise e => Raise e
          end
      end
  end.

(** [template.format] applied to the keyword arguments [kwargs]. *)
Definition format (template : str) (kwargs : list (str * str)) : outcome str :=
  match parse_template template [] None with
  | Return segs => render segs kwargs
  | Raise e => Raise e
  end.

End Py.
Import Py.

(* ================================================================== *)
(** * [hashlib.sha256]

    SHA-256 as FIPS 180-4 defines it, on 32-bit words held in [Z]. *)

Module Sha256.

Definition mask32 : Z := 4294967295.

(** Wrap-around of 32-bit arithmetic. *)
Definition wrap (x : Z) : Z := Z.land x mask32.
Definition add32 (x y : Z) : Z := wrap (x + y).

Definition rotr (n x : Z) : Z :=
  wrap (Z.lor (Z.shiftr x n) (Z.shiftl x (32 - n))).
Definition shr (n x : Z) : Z := Z.shiftr x n.
Definition not32 (x : Z) : Z := Z.lxor x mask32.

Definition Ch (x y z : Z) : Z := Z.lxor (Z.land x y) (Z.land (not32 x) z).
Definition Maj (x y z : Z) : Z :=
  Z.lxor (Z.lxor (Z.land x y) (Z.land x z)) (Z.land y z).
Definition big_sigma0 (x : Z) : Z :=
  Z.lxor (Z.lxor (rotr 2 x) (rotr 13 x)) (rotr 22 x).
Definition big_sigma1 (x : Z) : Z :=
  Z.lxor (Z.lxor (rotr 6 x) (rotr 11 x)) (rotr 25 x).
Definition small_sigma0 (x : Z) : Z :=
  Z.lxor (Z.lxor (rotr 7 x) (rotr 18 x)) (shr 3 x).
Definition small_sigma1 (x : Z) : Z :=
  Z.lxor (Z.lxor (rotr 17 x) (rotr 19 x)) (shr 10 x).

(** The constants are the fractional parts of the square roots (initial
    hash value) and cube roots (round constants) of the first primes. *)
Definition is_prime (n : Z) : bool :=
  forallb (fun d => negb (n mod d =? 0)) (map Z.of_nat (seq 2 (Z.to_nat n - 2))).

Definition primes_below (n : nat) : list Z :=
  filter is_prime (map Z.of_nat (seq 2 (n - 2))).

(** The largest [r + x] with [x < 2^bits] whose cube is at most [n]. *)
Fixpoint cube_root_from (bits : nat) (n r : Z) : Z :=
  match bits with
  | O => r
  | S b =>
      let c := r + 2 ^ Z.of_nat b in
      if c * c * c <=? n then cube_root_from b n c else cube_root_from b n r
  end.

Definition frac_sqrt (p : Z) : Z := wrap (Z.sqrt (p * 2 ^ 64)).
Definition frac_cbrt (p : Z) : Z := wrap (cube_root_from 40 (p * 2 ^ 96) 0).

Definition initial_hash : list Z :=
  Eval vm_compute in map frac_sqrt (firstn 8 (primes_below 312)).
Definition round_constants : list Z :=
  Eval vm_compute in map frac_cbrt (firstn 64 (primes_below 312)).

(** The eight working variables, and the hash value between blocks. *)
Record state : Type :=
  State { va : Z; vb : Z; vc : Z; vd : Z; ve : Z; vf : Z; vg : Z; vh : Z }.

Definition state_of (l : list Z) : state :=
  State (nth 0 l 0) (nth 1 l 0) (nth 2 l 0) (nth 3 l 0)
        (nth 4 l 0) (nth 5 l 0) (nth 6 l 0) (nth 7 l 0).

Definition words_of_state (s : state) : list Z :=
  [va s; vb s; vc s; vd s; ve s; vf s; vg s; vh s].

(** [x] as [n] big-endian bytes. *)
Fixpoint be_bytes (n : nat) (x : Z) : list Z :=
  match n with
  | O => []
  | S m => Z.land (Z.shiftr x (8 * Z.of_nat m)) 255 :: be_bytes m x
  end.

(** Padding: a 1 bit, zeros, and the bit length on 64 bits, up to a
    multiple of 64 bytes. *)
Definition pad (msg : list Z) : list Z :=
  let l := Z.of_nat (List.length msg) in
  msg ++ [128] ++ repeat 0 (Z.to_nat ((55 - l) mod 64)) ++ be_bytes 8 (8 * l).

Fixpoint words_of_bytes (bs : list Z) : list Z :=
  match bs with
  | b3 :: b2 :: b1 :: b0 :: rest =>
      (((b3 * 256 + b2) * 256 + b1) * 256 + b0) :: words_of_bytes rest
  | _ => []
  end.

(** The message schedule: [w] holds the words computed so far. *)
Fixpoint schedule (n : nat) (w : list Z) : list Z :=
  match n with
  | O => w
  | S m =>
      let t := List.length w in
      let x := add32 (add32 (small_sigma1 (nth (t - 2) w 0)) (nth (t - 7) w 0))
                     (add32 (small_sigma0 (nth (t - 15) w 0)) (nth (t - 16) w 0)) in
      schedule m (w ++ [x])
  end.

Definition round (s : state) (kw : Z * Z) : state :=
  let t1 := add32 (add32 (add32 (vh s) (big_sigma1 (ve s)))
                         (add32 (Ch (ve s) (vf s) (vg s)) (fst kw)))
                  (snd kw) in
  let t2 := add32 (big_sigma0 (va s)) (Maj (va s) (vb s) (vc s)) in
  State (add32 t1 t2) (va s) (vb s) (vc s) (add32 (vd s) t1) (ve s) (vf s) (vg s).

Definition compress (hv : state) (block : list Z) : state :=
  let s := fold_left round (combine round_constants (schedule 48 block)) hv in
  State (add32 (va hv) (va s)) (add32 (vb hv) (vb s))
        (add32 (vc hv) (vc s)) (add32 (vd hv) (vd s))
        (add32 (ve hv) (ve s)) (add32 (vf hv) (vf s))
        (add32 (vg hv) (vg s)) (add32 (vh hv) (vh s)).

Fixpoint absorb (nblocks : nat) (ws : list Z) (hv : state) : state :=
  match nblocks with
  | O => hv
  | S n => absorb n (skipn 16 ws) (compress hv (firstn 16 ws))
  end.

(** [hashlib.sha256(data)]: the hash object, holding the final hash value. *)
Definition sha256 (data : bytes) : state :=
  let ws := words_of_bytes (pad (map (fun b => Z.of_N (Byte.to_N b)) data)) in
  absorb (Nat.div (List.length ws) 16) ws (state_of initial_hash).

(** [h.digest()]: the 32 bytes of the hash value. *)
Definition digest (h : state) : list Z :=
  flat_map (be_bytes 4) (words_of_state h).

Definition hex_digit (d : Z) : char :=
  if d <? 10 then Z.to_N (48 + d) else Z.to_N (87 + d).

Definition hex_byte (b : Z) : str :=
  [hex_digit (Z.shiftr b 4); hex_digit (Z.land b 15)].

(** [h.hexdigest()]. *)
Definition hexdigest (h : state) : str := flat_map hex_byte (digest h).

End Sha256.

(* ================================================================== *)
(** * Collaborators *)

(** A page of an opened PDF: what [page.get_text()] gives. *)
Record Page : Type := { get_text : outcome str }.

(** An opened PDF ([fitz.Document]): [len(doc)] is its number of pages and
    iterating over it yields them in page order. *)
Definition PdfDocument := list Page.

(** The PyMuPDF module: [fitz.open(stream=..., filetype="pdf")]. *)
Record PyMuPDF : Type := { fitz_open : bytes -> outcome PdfDocument }.

(** What [import fitz] finds. *)
Inductive FitzImport : Type :=
| ModuleNotFound
| StubWithoutOpen
| FitzModule (fitz : PyMuPDF).

(** LangChain's [RecursiveCharacterTextSplitter] with its configuration. *)
Record Splitter : Type :=
  RecursiveCharacterTextSplitter
    { chunk_size : Z; chunk_overlap : Z; separators : list str }.

(** The metadata stored with a chunk. *)
Record Metadata : Type := { doc_hash : str; chunk_id : Z }.

(** A retrieved LangChain document. *)
Record Document : Type := { page_content : str }.

(** A vector store: [as_retriever(search_type="similarity",
    search_kwargs={"k": k}).get_relevant_documents(query)]. *)
Record VectorStore : Type :=
  { get_relevant_documents : str -> Z -> outcome (list Document) }.

(** A chat model behind [prompt | llm | StrOutputParser()]: the text it
    answers to a prompt. *)
Record ChatModel : Type := { invoke : str -> outcome str }.

(** An embedding function ([OpenAIEmbeddings]). *)
Record Embeddings : Type := { embedding_model : str }.

(** A metadata filter [{field: {"$eq": value}}]. *)
Inductive Filter : Type :=
| FieldEq (field : str) (value : str).

Record Match : Type := { match_id : str; match_metadata : Metadata }.
Record QueryResponse : Type := { matches : list Match }.

(** A Pinecone index handle: [index.query(vector=, top_k=, filter=)]. *)
Record Index : Type :=
  { index_query : list Q -> Z -> Filter -> outcome QueryResponse }.

(** What the module finds around it: the installed [fitz], the text
    splitter's [split_text], [st.secrets[section][key]] and
    [PineconeVectorStore.from_texts]. *)
Record Runtime : Type :=
  { import_fitz : FitzImport;
    split_text : Splitter -> str -> outcome (list str);
    secrets : str -> str -> outcome str;
    from_texts : list str -> Embeddings -> str -> list Metadata -> str
                 -> outcome VectorStore }.

(* ================================================================== *)
(** * Calls, traces and the monad *)

Inductive LogLevel : Type := INFO | ERROR.

(** A call made to a collaborator, or a line written out. *)
Inductive Event : Type :=
| FitzOpen (stream : bytes)
| GetText (page_number : nat)
| SplitText (splitter : Splitter) (text : str)
| SecretRead (section key : str)
| SetEnviron (name value : str)
| FromTexts (texts : list str) (index_name : str) (metadatas : list Metadata)
| IndexQuery (vector : list Q) (top_k : Z) (filter : Filter)
| Retrieve (query : str) (k : Z)
| LLMInvoke (prompt : str)
| Logged (level : LogLevel) (message : str)
| Printed (message : str).

Definition Trace := list Event.

(** A computation: from the trace so far to an outcome and the trace
    extended with the calls it made. *)
Definition M (A : Type) : Type := Trace -> outcome A * Trace.

Definition ret {A : Type} (a : A) : M A := fun t => (Return a, t).
Definition raise {A : Type} (e : exn) : M A := fun t => (Raise e, t).

Definition bind {A B : Type} (m : M A) (k : A -> M B) : M B :=
  fun t =>
    match m t with
    | (Return a, t') => k a t'
    | (Raise e, t') => (Raise e, t')
    end.

(** [try: body except Exception as e: handler(e)]. *)
Definition try_except {A : Type} (body : M A) (handler : exn -> M A) : M A :=
  fun t =>
    match body t with
    | (Return a, t') => (Return a, t')
    | (Raise e, t') => handler e t'
    end.

(** A call to a collaborator: it is recorded, and answers [r]. *)
Definition call {A : Type} (ev : Event) (r : outcome A) : M A :=
  fun t => (r, t ++ [ev]).

Definition emit (ev : Event) : M unit := call ev (Return tt).

(** A step that calls no collaborator and may raise. *)
Definition lift {A : Type} (r : outcome A) : M A := fun t => (r, t).

Declare Scope monad_scope.
Delimit Scope monad_scope with monad.
Notation "x <- m ;; k" := (bind m (fun x => k))
  (at level 61, m at next level, right associativity) : monad_scope.
Notation "m ;; k" := (bind m (fun _ => k))
  (at level 61, right associativity) : monad_scope.
Local Open Scope monad_scope.

Definition logger_info (msg : str) : M unit := emit (Logged INFO msg).
Definition logger_error (msg : str) : M unit := emit (Logged ERROR msg).
Definition print (msg : str) : M unit := emit (Printed msg).

(* ================================================================== *)
(** * The functions of [pdf_utils.py] *)

Definition default_chunk_size : Z := 1000.
Definition default_chunk_overlap : Z := 200.
Definition default_index_name : str := lit "rag-index".
Definition default_top_k : Z := 5.

Section Pipeline.

Variable rt : Runtime.

Definition _get_pymupdf : M PyMuPDF :=
  match import_fitz rt with
  | FitzModule fitz => ret fitz
  | StubWithoutOpen =>
      raise (ImportError
        (lit "Found a stub 'fitz' package without 'open()'. "
         ++ lit "Uninstall it and install PyMuPDF:  pip uninstall -y fitz && pip install --upgrade PyMuPDF"))
  | ModuleNotFound =>
      raise (ImportError
        (lit "PyMuPDF not installed. Install it with:  pip install PyMuPDF"))
  end.

(** [for page in doc: full_text += page.get_text()], from page
    [page_number] on. *)
Fixpoint read_pages (pages : list Page) (page_number : nat) (full_text : str)
  : M str :=
  match pages with
  | [] => ret full_text
  | page :: rest =>
      text <- call (GetText page_number) (get_text page) ;;
      read_pages rest (S page_number) (full_text ++ text)
  end.

Definition store_chunks_in_pinecone (chunks : list str)
    (embedding_function : Embeddings) (index_name : str) (pdf_hash : str)
  : M VectorStore :=
  try_except
    (let metadatas :=
       map (fun i => {| doc_hash := pdf_hash; chunk_id := Z.of_nat i |})
           (seq 0 (List.length chunks)) in
     PINECONE_API_KEY <-
       call (SecretRead (lit "pinecone") (lit "pineconeapi_key"))
            (secrets rt (lit "pinecone") (lit "pineconeapi_key")) ;;
     emit (SetEnviron (lit "PINECONE_API_KEY") PINECONE_API_KEY) ;;
     vector_store <-
       call (FromTexts chunks (lit "rag-index") metadatas)
            (from_texts rt chunks embedding_function (lit "rag-index")
                        metadatas PINECONE_API_KEY) ;;
     logger_info (lit "Stored " ++ str_of_int (len chunks)
                  ++ lit " chunks in Pinecone") ;;
     ret vector_store)
    (fun e =>
       logger_error (lit "Error storing embeddings in Pinecone: " ++ exn_str e) ;;
       raise e).

Definition validate_pdf (file_content : bytes) : M (bool * str * str) :=
  try_except
    (fitz <- _get_pymupdf ;;
     doc <- call (FitzOpen file_content) (fitz_open fitz file_content) ;;
     let page_count := len doc in
     if page_count >? 5 then
       ret (false,
            lit "PDF has " ++ str_of_int page_count
            ++ lit " pages. Maximum allowed is 5.",
            lit "")
     else
       full_text <- read_pages doc 0 (lit "") ;;
       let word_count := len (split full_text) in
       if word_count >? 10000 then
         ret (false,
              lit "PDF has " ++ str_of_int word_count
              ++ lit " words. Maximum allowed is 10,000.",
              lit "")
       else ret (true, lit "PDF is valid.", full_text))
    (fun e => ret (false, lit "Error reading PDF: " ++ exn_str e, lit "")).

Definition process_pdf_and_split (file_content : bytes)
    (chunk_size chunk_overlap : Z) : M (list str) :=
  try_except
    (fitz <- _get_pymupdf ;;
     doc <- call (FitzOpen file_content) (fitz_open fitz file_content) ;;
     full_text <- read_pages doc 0 (lit "") ;;
     let splitter :=
       RecursiveCharacterTextSplitter 1000 200
         [[newline; newline]; [newline]; lit "."; lit " "; lit ""] in
     chunks <- call (SplitText splitter full_text)
                    (split_text rt splitter full_text) ;;
     ret chunks)
    (fun e => raise (ValueError (lit "Error processing PDF: " ++ exn_str e))).

End Pipeline.

Definition rag_template : str :=
  lit "
You are **DocuChat**, an AI assistant that answers questions about an uploaded PDF.
Follow these rules strictly:

1️⃣ *Grounding* – Base your answer primarily on the *Context* below.  
2️⃣ *Enrichment* – You *may* add short, widely accepted background facts if they make the answer clearer.  
   • Prefix each extra fact with *💡 Extra insight:* so the user knows it’s outside the document.  
3️⃣ *Formatting* – Reply in *Markdown*:
   • Use bullet points or numbered lists for multiple items
   • Bold key terms or section names
4️⃣ *Unknowns* – If the document doesn't help answer the question, you may still use your general knowledge to provide a helpful answer.  
   • Do **not** respond with: `"
  ++ [double_quote] ++ lit "The document doesn't contain that information." ++ [double_quote]
  ++ lit "` unless instructed to.
---
Context:
{context}

Question:
{query}

Answer:
".

(** [ChatPromptTemplate.from_template(template)]: the prompt is one human
    message, the template formatted with the inputs of [invoke]. *)
Definition create_rag_prompt_template : str := rag_template.

Definition query_llm_with_rag (query : str) (vector_store : VectorStore)
    (llm : ChatModel) (top_k : Z) : M str :=
  try_except
    (retrieved_docs <-
       call (Retrieve query top_k)
            (get_relevant_documents vector_store query top_k) ;;
     let context :=
       match retrieved_docs with
       | _ :: _ => join [newline; newline] (map page_content retrieved_docs)
       | [] => lit "No relevant context found."
       end in
     let prompt_template := create_rag_prompt_template in
     prompt <- lift (format prompt_template
                            [(lit "query", query); (lit "context", context)]) ;;
     response <- call (LLMInvoke prompt) (invoke llm prompt) ;;
     ret (strip response))
    (fun e => ret (lit "Error querying LLM: " ++ exn_str e)).

Definition get_pdf_hash (file_bytes : bytes) : str :=
  Sha256.hexdigest (Sha256.sha256 file_bytes).

Definition is_document_already_indexed (index : Index) (pdf_hash : str)
  : M bool :=
  try_except
    (let vector := repeat 0%Q 1536 in
     let filter := FieldEq (lit "doc_hash") pdf_hash in
     results <- call (IndexQuery vector 1 filter)
                     (index_query index vector 1 filter) ;;
     ret (len (matches results) >? 0))
    (fun e =>
       print (lit "Error checking existing doc: " ++ exn_str e) ;;
       ret false).

(* ================================================================== *)
(** * The ingestion path *)

(** Modelled from the spec: the caller that ingests a document is not in
    [pdf_utils.py].  The specification's vector store gateway queries the
    index for the fingerprint before it ingests a document's chunks, treats
    any returned match as already indexed and then skips ingestion;
    otherwise the chunks are stored.  [None] is a skipped ingestion. *)
Definition ingest_document (rt : Runtime) (index : Index) (chunks : list str)
    (embedding_function : Embeddings) (pdf_hash : str)
  : M (option VectorStore) :=
  already_indexed <- is_document_already_indexed index pdf_hash ;;
  if already_indexed then ret None
  else
    vector_store <- store_chunks_in_pinecone rt chunks embedding_function
                      default_index_name pdf_hash ;;
    ret (Some vector_store).

(* ================================================================== *)
(** * Reading traces *)

(** The splitter configurations of the [split_text] calls of a trace. *)
Definition splitter_calls (t : Trace) : list Splitter :=
  flat_map (fun ev => match ev with SplitText sp _ => [sp] | _ => [] end) t.

(** The page numbers whose text a trace asked for. *)
Definition pages_read (t : Trace) : list nat :=
  flat_map (fun ev => match ev with GetText n => [n] | _ => [] end) t.

(** The writes to the vector index ([from_texts] calls) of a trace. *)
Definition upsert_calls (t : Trace) : list (list str * list Metadata) :=
  flat_map (fun ev => match ev with
                      | FromTexts texts _ metas => [(texts, metas)]
                      | _ => []
                      end) t.

(** The prompts a trace sent to the chat model. *)
Definition llm_calls (t : Trace) : list str :=
  flat_map (fun ev => match ev with LLMInvoke p => [p] | _ => [] end) t.

(* ================================================================== *)
(** * The words of the specification *)

Definition all_space (s : str) : Prop := forallb isspace s = true.
Definition no_space (s : str) : Prop :=
  forallb (fun c => negb (isspace c)) s = true.

(** [s] is empty or begins with a whitespace character. *)
Definition starts_blank (s : str) : Prop :=
  match s with [] => True | c :: _ => isspace c = true end.

(** [Tokens s ws]: [ws] are the whitespace-delimited tokens of [s], in
    order: maximal non-empty runs of non-whitespace characters, with
    whitespace before, between and after them. *)
Inductive Tokens : str -> list str -> Prop :=
| Tokens_blank (sp : str) :
    all_space sp -> Tokens sp []
| Tokens_word (sp w rest : str) (ws : list str) :
    all_space sp -> w <> [] -> no_space w -> starts_blank rest ->
    Tokens rest ws -> Tokens (sp ++ w ++ rest) (w :: ws).

(** [Trimmed s r]: [r] is [s] without its leading and trailing
    whitespace. *)
Definition Trimmed (s r : str) : Prop :=
  exists before after,
    s = before ++ r ++ after /\ all_space before /\ all_space after
    /\ (forall c rest, r = c :: rest -> isspace c = false)
    /\ (forall c front, r = front ++ [c] -> isspace c = false).


(** The two rejection messages of [validate_pdf]. *)
Definition page_limit_message (page_count : Z) : str :=
  lit "PDF has " ++ str_of_int page_count ++ lit " pages. Maximum allowed is 5.".
Definition word_limit_message (word_count : Z) : str :=
  lit "PDF has " ++ str_of_int word_count
  ++ lit " words. Maximum allowed is 10,000.".

(** A file that parses: PyMuPDF is installed and opens it as [doc]. *)
Definition opens_as (rt : Runtime) (file_content : bytes) (doc : PdfDocument)
  : Prop :=
  exists fitz, import_fitz rt = FitzModule fitz
               /\ fitz_open fitz file_content = Return doc.

(** The text of every page of [doc] extracts, as [texts] in page order. *)
Definition extracts_as (doc : PdfDocument) (texts : list str) : Prop :=
  map get_text doc = map Return texts.

(** The placeholder query vector of the existence check, and its filter. *)
Definition placeholder_vector : list Q := repeat 0%Q 1536.
Definition doc_hash_filter (pdf_hash : str) : Filter :=
  FieldEq (lit "doc_hash") pdf_hash.

(** The context given to the model: the retrieved texts separated by blank
    lines, or the placeholder when nothing was retrieved. *)
Definition no_context : str := lit "No relevant context found.".
Definition context_of (docs : list Document) : str :=
  match docs with
  | [] => no_context
  | _ :: _ => join [newline; newline] (map page_content docs)
  end.

(** The prompt: the template's text up to its [{context}] field, the
    context, the question heading, the query and the answer heading. *)
Definition template_head : str := firstn 785 rag_template.
Definition question_heading : str :=
  [newline; newline] ++ lit "Question:" ++ [newline].
Definition answer_heading : str :=
  [newline; newline] ++ lit "Answer:" ++ [newline].
Definition rag_prompt (context query : str) : str :=
  template_head ++ context ++ question_heading ++ query ++ answer_heading.

(** The answer returned in place of an error. *)
Definition error_answer (e : exn) : str := lit "Error querying LLM: " ++ exn_str e.

(* ================================================================== *)
(** * Simulated collaborators, for running the functions *)

Definition pdf_of_pages (texts : list str) : PdfDocument :=
  map (fun text => {| get_text := Return text |}) texts.

(** A stand-in splitter that honours its configuration: windows of
    [chunk_size] characters, each starting [chunk_size - chunk_overlap]
    after the one before. *)
Fixpoint windows (fuel size step : nat) (s : str) : list str :=
  match fuel with
  | O => []
  | S f =>
      match s with
      | [] => []
      | _ :: _ =>
          firstn size s ::
          (if Nat.leb (List.length s) size then []
           else windows f size step (skipn step s))
      end
  end.

Definition window_split (sp : Splitter) (text : str) : outcome (list str) :=
  Return (windows (List.length text) (Z.to_nat (chunk_size sp))
                  (Z.to_nat (chunk_size sp - chunk_overlap sp)) text).

(** A vector store holding [docs]: the first [k] are retrieved. *)
Definition store_of (docs : list str) : VectorStore :=
  {| get_relevant_documents := fun _ k =>
       Return (map (fun d => {| page_content := d |}) (firstn (Z.to_nat k) docs)) |}.

(** A runtime where PyMuPDF opens every file as [doc]. *)
Definition runtime_with (doc : outcome PdfDocument) : Runtime :=
  {| import_fitz := FitzModule {| fitz_open := fun _ => doc |};
     split_text := window_split;
     secrets := fun _ _ => Return (lit "secret-key");
     from_texts := fun texts _ _ _ _ => Return (store_of texts) |}.

(** An index holding records with the metadata [stored]: a query
    answers the records its filter selects, at most [top_k] of them. *)
Definition index_of (stored : list Metadata) : Index :=
  {| index_query := fun _ top_k selection =>
       match selection with
       | FieldEq field value =>
           Return {| matches :=
             map (fun m => {| match_id := str_of_int (chunk_id m);
                              match_metadata := m |})
                 (firstn (Z.to_nat top_k)
                    (List.filter (fun m => str_eqb field (lit "doc_hash")
                                      && str_eqb (doc_hash m) value) stored)) |}
       end |}.

(** An index whose queries fail with [e]. *)
Definition unreachable_index (e : exn) : Index :=
  {| index_query := fun _ _ _ => Raise e |}.

Definition chat_model_answering (answer : outcome str) : ChatModel :=
  {| invoke := fun _ => answer |}.

(** [n] words, one per line. *)
Definition words (n : nat) : str := List.concat (repeat (lit "word" ++ [newline]) n).

(** A five-page PDF of exactly 10,000 words and a six-page PDF of 12,000
    words, 2,000 words a page; a five-page PDF of 10,001 words. *)
Definition five_page_pdf : PdfDocument := pdf_of_pages (repeat (words 2000) 5).
Definition six_page_pdf : PdfDocument := pdf_of_pages (repeat (words 2000) 6).
Definition wordy_five_page_pdf : PdfDocument :=
  pdf_of_pages (words 2001 :: repeat (words 2000) 4).

(** A six-page PDF whose text cannot be extracted. *)
Definition unreadable_six_page_pdf : PdfDocument :=
  repeat {| get_text := Raise (Exception "RuntimeError" (lit "cannot extract text")) |} 6.

(** What PyMuPDF raises on bytes that are no PDF. *)
Definition not_a_pdf : exn :=
  Exception "FileDataError" (lit "Failed to open stream").

(** The splitter [process_pdf_and_split] builds. *)
Definition fixed_splitter : Splitter :=
  RecursiveCharacterTextSplitter 1000 200
    [[newline; newline]; [newline]; lit "."; lit " "; lit ""].

(** The splitter a caller asks for with [chunk_size] and [chunk_overlap]. *)
Definition requested_splitter (chunk_size chunk_overlap : Z) : Splitter :=
  RecursiveCharacterTextSplitter chunk_size chunk_overlap
    (separators fixed_splitter).

(** A one-page PDF of 1,200 characters. *)
Definition long_page : str := words 240.
Definition one_page_pdf : PdfDocument := pdf_of_pages [long_page].

(** A fingerprint, and an index that already holds two chunks of it. *)
Definition sample_hash : str := get_pdf_hash (list_byte_of_string "abc").
Definition indexed_once : Index :=
  index_of [ {| doc_hash := sample_hash; chunk_id := 0 |};
             {| doc_hash := sample_hash; chunk_id := 1 |} ].


(** An error of the service behind the index or the model. *)
Definition service_down : exn :=
  Exception "ConnectionError" (lit "service unavailable").

(* ================================================================== *)
(** * Claims that the code does not meet as they are stated *)

(** The word-limit claim as stated, for one installation and one file:
    whenever the file parses and its text extracts, the verdict is the
    word-count rejection exactly when the text has more than 10,000
    whitespace-delimited tokens, and a text of exactly 10,000 is accepted. *)
Definition word_limit_claim_as_stated (rt : Runtime) (file_content : bytes)
  : Prop :=
  forall doc texts ws,
    opens_as rt file_content doc -> extracts_as doc texts ->
    Tokens (List.concat texts) ws ->
    (fst (validate_pdf rt file_content [])
     = Return (false, word_limit_message (len ws), lit "")
     <-> len ws > 10000)
    /\ (len ws = 10000 ->
        fst (validate_pdf rt file_content [])
        = Return (true, lit "PDF is valid.", List.concat texts)).

(* ================================================================== *)
(** * Start-up: credentials and clients *)

(** The arguments of [pc.create_index]: the name, the dimension, the
    metric and the serverless cloud and region. *)
Record IndexSpec : Type :=
  { spec_name : str; spec_dimension : Z; spec_metric : str;
    spec_cloud : str; spec_region : str }.

(** A Pinecone client [pc]: [pc.list_indexes().names()] and
    [pc.create_index(...)]. *)
Record PineconeClient : Type :=
  { list_index_names : outcome (list str);
    create_index : IndexSpec -> outcome unit }.

(** What start-up finds: [st.secrets[section][key]] and the constructors
    [Pinecone(api_key=)], [OpenAIEmbeddings(model=, openai_api_key=)] and
    [ChatOpenAI(model_name=, openai_api_key=, temperature=)]. *)
Record Platform : Type :=
  { st_secrets : str -> str -> outcome str;
    Pinecone : str -> outcome PineconeClient;
    OpenAIEmbeddings : str -> str -> outcome Embeddings;
    ChatOpenAI : str -> str -> Q -> outcome ChatModel }.

(** A call made at start-up, or a line logged there. *)
Inductive SetupEvent : Type :=
| LoadDotenv
| SecretLookup (section key : str)
| PineconeInit (api_key : str)
| ListIndexes
| CreateIndex (spec : IndexSpec)
| EmbeddingsInit (model api_key : str)
| ChatModelInit (model_name api_key : str) (temperature : Q)
| SetupLogged (level : LogLevel) (message : str).

(** Start-up computations: as [M], over the start-up calls. *)
Definition Setup (A : Type) : Type :=
  list SetupEvent -> outcome A * list SetupEvent.

Definition setup_ret {A : Type} (a : A) : Setup A := fun t => (Return a, t).
Definition setup_raise {A : Type} (e : exn) : Setup A := fun t => (Raise e, t).

Definition setup_bind {A B : Type} (m : Setup A) (k : A -> Setup B) : Setup B :=
  fun t =>
    match m t with
    | (Return a, t') => k a t'
    | (Raise e, t') => (Raise e, t')
    end.

Definition setup_try {A : Type} (body : Setup A) (handler : exn -> Setup A)
  : Setup A :=
  fun t =>
    match body t with
    | (Return a, t') => (Return a, t')
    | (Raise e, t') => handler e t'
    end.

Definition setup_call {A : Type} (ev : SetupEvent) (r : outcome A) : Setup A :=
  fun t => (r, t ++ [ev]).

Definition setup_log (level : LogLevel) (msg : str) : Setup unit :=
  setup_call (SetupLogged level msg) (Return tt).

Declare Scope setup_scope.
Delimit Scope setup_scope with setup.
Notation "x <- m ;; k" := (setup_bind m (fun x => k))
  (at level 61, m at next level, right associativity) : setup_scope.
Notation "m ;; k" := (setup_bind m (fun _ => k))
  (at level 61, right associativity) : setup_scope.

(** [not s] of a string: true when it is empty. *)
Definition py_not (s : str) : bool :=
  match s with [] => true | _ :: _ => false end.

(** [x in names] for a list of strings. *)
Definition py_in (x : str) (names : list str) : bool := existsb (str_eqb x) names.

Section Startup.

Variable pf : Platform.

Local Open Scope setup_scope.

Definition load_environment : Setup (str * str) :=
  setup_call LoadDotenv (Return tt) ;;
  PINECONE_API_KEY <-
    setup_call (SecretLookup (lit "pinecone") (lit "pineconeapi_key"))
               (st_secrets pf (lit "pinecone") (lit "pineconeapi_key")) ;;
  OPENAI_API_KEY <-
    setup_call (SecretLookup (lit "openai") (lit "openapi_key"))
               (st_secrets pf (lit "openai") (lit "openapi_key")) ;;
  if py_not PINECONE_API_KEY || py_not OPENAI_API_KEY then
    setup_raise (ValueError
      (lit "Missing API keys. Please set PINECONE_API_KEY and OPENAI_API_KEY."))
  else setup_ret (PINECONE_API_KEY, OPENAI_API_KEY).

Definition initialize_pinecone (api_key index_name : str) : Setup PineconeClient :=
  setup_try
    (pc <- setup_call (PineconeInit api_key) (Pinecone pf api_key) ;;
     names <- setup_call ListIndexes (list_index_names pc) ;;
     (if negb (py_in index_name names) then
        let spec :=
          {| spec_name := index_name; spec_dimension := 1536;
             spec_metric := lit "cosine";
             spec_cloud := lit "aws"; spec_region := lit "us-east-1" |} in
        setup_call (CreateIndex spec) (create_index pc spec) ;;
        setup_log INFO (lit "Created index: " ++ index_name)
      else
        setup_log INFO (lit "Index " ++ index_name ++ lit " already exists")) ;;
     setup_ret pc)
    (fun e =>
       setup_log ERROR (lit "Error initializing Pinecone client: " ++ exn_str e) ;;
       setup_raise e).

Definition initialize_embeddings (api_key : str) : Setup Embeddings :=
  setup_try
    (embeddings <-
       setup_call (EmbeddingsInit (lit "text-embedding-3-small") api_key)
                  (OpenAIEmbeddings pf (lit "text-embedding-3-small") api_key) ;;
     setup_ret embeddings)
    (fun e =>
       setup_log ERROR (lit "Error generating embeddings: " ++ exn_str e) ;;
       setup_raise e).

Definition initialize_llm (api_key : str) : Setup ChatModel :=
  setup_try
    (llm <-
       setup_call (ChatModelInit (lit "gpt-4o-mini") api_key (7 # 10))
                  (ChatOpenAI pf (lit "gpt-4o-mini") api_key (7 # 10)) ;;
     setup_ret llm)
    (fun e =>
       setup_log ERROR (lit "Error initializing LLM: " ++ exn_str e) ;;
       setup_raise e).

End Startup.

(** The index specifications a start-up trace asked to create. *)
Definition created_indexes (t : list SetupEvent) : list IndexSpec :=
  flat_map (fun ev => match ev with CreateIndex spec => [spec] | _ => [] end) t.

(** The specification [initialize_pinecone] creates an index with. *)
Definition rag_index_spec (index_name : str) : IndexSpec :=
  {| spec_name := index_name; spec_dimension := 1536;
     spec_metric := lit "cosine";
     spec_cloud := lit "aws"; spec_region := lit "us-east-1" |}.

(** What [load_environment] raises when a key is empty. *)
Definition missing_keys : exn :=
  ValueError
    (lit "Missing API keys. Please set PINECONE_API_KEY and OPENAI_API_KEY.").

(** What [process_pdf_and_split] raises when [cause] occurred inside. *)
Definition processing_error (cause : exn) : exn :=
  ValueError (lit "Error processing PDF: " ++ exn_str cause).

(** The model queries of a trace: the retrievals, with their [k]. *)
Definition retrieval_calls (t : Trace) : list (str * Z) :=
  flat_map (fun ev => match ev with Retrieve q k => [(q, k)] | _ => [] end) t.

(** The word count [validate_pdf] would give one page on its own. *)
Definition page_words (text : str) : Z := len (split text).

(** Reading a lowercase hexadecimal string back into bytes. *)
Definition hex_value (c : char) : Z :=
  if (c <? 58)%N then Z.of_N c - 48 else Z.of_N c - 87.

Fixpoint unhex (s : str) : list Z :=
  match s with
  | hi :: lo :: rest => (16 * hex_value hi + hex_value lo) :: unhex rest
  | _ => []
  end.

(** A Pinecone client over a service that holds the indexes [names]. *)
Definition client_with (names : list str) : PineconeClient :=
  {| list_index_names := Return names;
     create_index := fun _ => Return tt |}.

(** A platform with the two secrets [pinecone_key] and [openai_key], whose
    Pinecone service holds the indexes [names]. *)
Definition platform_with (pinecone_key openai_key : str) (names : list str)
  : Platform :=
  {| st_secrets := fun section _ =>
       if str_eqb section (lit "pinecone") then Return pinecone_key
       else Return openai_key;
     Pinecone := fun _ => Return (client_with names);
     OpenAIEmbeddings := fun model _ => Return {| embedding_model := model |};
     ChatOpenAI := fun _ _ _ => Return (chat_model_answering (Return (lit "ok"))) |}.

(** A platform whose services are all down. *)
Definition platform_down : Platform :=
  {| st_secrets := fun _ _ => Raise (KeyError (lit "pinecone"));
     Pinecone := fun _ => Raise service_down;
     OpenAIEmbeddings := fun _ _ => Raise service_down;
     ChatOpenAI := fun _ _ _ => Raise service_down |}.

(* ================================================================== *)
(** * Running computations *)

Ltac unfold_monad :=
  unfold logger_info, logger_error, print, emit in *;
  unfold try_except, bind, call, lift, ret, raise in *.

Lemma lit_empty : lit "" = [].
Proof. reflexivity. Qed.

(** Reading pages whose text extracts gives their texts, concatenated in
    page order, and asks each page once, in order. *)
Lemma read_pages_extracts (doc : PdfDocument) :
  forall texts page_number full_text t,
    extracts_as doc texts ->
    read_pages doc page_number full_text t
    = (Return (full_text ++ List.concat texts),
       t ++ map GetText (seq page_number (List.length doc))).
Proof.
  unfold extracts_as.
  induction doc as [|page rest IH]; intros texts n acc t Hx.
  - destruct texts as [|x xs]; [|discriminate Hx].
    cbn. now rewrite !app_nil_r.
  - destruct texts as [|x xs]; [discriminate Hx|].
    cbn in Hx. injection Hx as Hpage Hrest.
    cbn [read_pages]. unfold bind at 1. unfold call at 1. rewrite Hpage.
    rewrite (IH xs (S n) (acc ++ x) _ Hrest).
    cbn [List.concat List.length seq map].
    rewrite <- !app_assoc. reflexivity.
Qed.

(** Reading stops at the first page whose extraction raises. *)
Lemma read_pages_raises (good : PdfDocument) :
  forall texts e rest page_number full_text t,
    extracts_as good texts ->
    read_pages (good ++ {| get_text := Raise e |} :: rest) page_number full_text t
    = (Raise e,
       t ++ map GetText (seq page_number (S (List.length good)))).
Proof.
  unfold extracts_as.
  induction good as [|page more IH]; intros texts e rest n acc t Hx.
  - reflexivity.
  - destruct texts as [|x xs]; [discriminate Hx|].
    cbn in Hx. injection Hx as Hpage Hrest.
    cbn [app read_pages]. unfold bind at 1. unfold call at 1. rewrite Hpage.
    rewrite (IH xs e rest (S n) (acc ++ x) _ Hrest).
    cbn [List.length seq map]. rewrite <- !app_assoc. reflexivity.
Qed.

(** Every document either extracts, or has a first page that raises. *)
Lemma extracts_or_raises (doc : PdfDocument) :
  (exists texts, extracts_as doc texts)
  \/ (exists good texts e rest,
        doc = good ++ {| get_text := Raise e |} :: rest
        /\ extracts_as good texts).
Proof.
  unfold extracts_as.
  induction doc as [|[[text|e]] rest IH].
  - left. now exists [].
  - destruct IH as [[texts Hx]|(good & texts & e & rest' & -> & Hx)].
    + left. exists (text :: texts). cbn. now rewrite Hx.
    + right. exists ({| get_text := Return text |} :: good), (text :: texts), e, rest'.
      split; [reflexivity|]. cbn. now rewrite Hx.
  - right. exists [], [], e, rest. split; reflexivity.
Qed.

(** Reading pages only ever adds [GetText] calls to the trace. *)
Lemma read_pages_trace (doc : PdfDocument) page_number full_text t :
  exists k, snd (read_pages doc page_number full_text t)
            = t ++ map GetText (seq page_number k).
Proof.
  destruct (extracts_or_raises doc)
    as [[texts Hx]|(good & texts & e & rest & -> & Hx)].
  - exists (List.length doc). now rewrite (read_pages_extracts _ _ _ _ _ Hx).
  - exists (S (List.length good)). now rewrite (read_pages_raises _ _ _ _ _ _ _ Hx).
Qed.

(** [validate_pdf] on a file that opens. *)
Lemma validate_pdf_opened rt file_content doc t :
  opens_as rt file_content doc ->
  validate_pdf rt file_content t
  = if len doc >? 5 then
      (Return (false, page_limit_message (len doc), []), t ++ [FitzOpen file_content])
    else
      match read_pages doc 0 [] (t ++ [FitzOpen file_content]) with
      | (Return full_text, t') =>
          if len (split full_text) >? 10000 then
            (Return (false, word_limit_message (len (split full_text)), []), t')
          else (Return (true, lit "PDF is valid.", full_text), t')
      | (Raise e, t') =>
          (Return (false, lit "Error reading PDF: " ++ exn_str e, []), t')
      end.
Proof.
  intros (fitz & Himport & Hopen).
  unfold validate_pdf, _get_pymupdf. rewrite Himport.
  unfold try_except, bind at 1. unfold ret at 1.
  unfold bind at 1. unfold call at 1. rewrite Hopen.
  destruct (len doc >? 5); [reflexivity|].
  unfold bind. rewrite lit_empty.
  destruct (read_pages doc 0 [] (t ++ [FitzOpen file_content])) as [[full_text|e] t'].
  - destruct (len (split full_text) >? 10000); reflexivity.
  - reflexivity.
Qed.

(** The messages of [validate_pdf] tell its verdicts apart. *)
Lemma page_message_not_word_message n m :
  page_limit_message n <> word_limit_message m.
Proof.
  unfold page_limit_message, word_limit_message. intro H.
  apply (f_equal (fun s => firstn 2 (rev s))) in H.
  rewrite !app_assoc, !rev_app_distr in H.
  vm_compute in H. discriminate H.
Qed.

Lemma page_message_not_error n msg :
  page_limit_message n <> lit "Error reading PDF: " ++ msg.
Proof.
  unfold page_limit_message. intro H.
  apply (f_equal (fun s => nth 0 s 0%N)) in H.
  vm_compute in H. discriminate H.
Qed.

Lemma word_message_not_error n msg :
  word_limit_message n <> lit "Error reading PDF: " ++ msg.
Proof.
  unfold word_limit_message. intro H.
  apply (f_equal (fun s => nth 0 s 0%N)) in H.
  vm_compute in H. discriminate H.
Qed.

(* ================================================================== *)
(** * [split] and [strip] against the words of the specification *)

Lemma split_scan_spaces (sp s : str) :
  all_space sp -> split_scan (sp ++ s) [] = split_scan s [].
Proof.
  unfold all_space. induction sp as [|c sp IH]; intros H; [reflexivity|].
  cbn in H. apply andb_prop in H as [Hc Hsp].
  cbn. rewrite Hc. now apply IH.
Qed.

Lemma split_scan_word (w : str) :
  forall s word, no_space w -> split_scan (w ++ s) word = split_scan s (word ++ w).
Proof.
  unfold no_space. induction w as [|c w IH]; intros s word H.
  - now rewrite app_nil_r.
  - cbn in H. apply andb_prop in H as [Hc Hw].
    apply negb_true_iff in Hc.
    cbn. rewrite Hc, (IH s (word ++ [c]) Hw), <- app_assoc. reflexivity.
Qed.

Lemma split_scan_flush (rest word : str) :
  word <> [] -> starts_blank rest ->
  split_scan rest word = word :: split_scan rest [].
Proof.
  intros Hne Hblank. destruct word as [|c word]; [contradiction|].
  destruct rest as [|b rest]; [reflexivity|].
  cbn in Hblank. cbn. now rewrite Hblank.
Qed.

(** The tokens of a string are what [split] returns. *)
Lemma Tokens_split (s : str) (ws : list str) : Tokens s ws -> split s = ws.
Proof.
  unfold split. induction 1 as [sp Hsp|sp w rest ws Hsp Hne Hw Hblank _ IH].
  - rewrite <- (app_nil_r sp). now rewrite split_scan_spaces.
  - rewrite split_scan_spaces by assumption.
    rewrite split_scan_word by assumption.
    cbn [app]. rewrite split_scan_flush by assumption.
    now rewrite IH.
Qed.

Lemma all_space_cons (c : char) (s : str) :
  isspace c = true -> all_space s -> all_space (c :: s).
Proof. unfold all_space. intros Hc Hs. cbn. now rewrite Hc. Qed.

Lemma all_space_head (c : char) (s : str) : all_space (c :: s) -> isspace c = true.
Proof. unfold all_space. cbn. intros H. now apply andb_prop in H as [Hc _]. Qed.

Lemma no_space_cons (c : char) (s : str) :
  isspace c = false -> no_space s -> no_space (c :: s).
Proof. unfold no_space. intros Hc Hs. cbn. now rewrite Hc. Qed.

Lemma Tokens_single (c : char) (rest : str) (ws : list str) :
  isspace c = false -> starts_blank rest -> Tokens rest ws ->
  Tokens (c :: rest) ([c] :: ws).
Proof.
  intros Hc Hblank Hrest.
  apply (Tokens_word [] [c] rest ws).
  - reflexivity.
  - discriminate.
  - now apply no_space_cons.
  - exact Hblank.
  - exact Hrest.
Qed.

(** Every string has a tokenization. *)
Lemma Tokens_exists (s : str) : exists ws, Tokens s ws.
Proof.
  induction s as [|c s [ws IH]].
  - exists []. now constructor.
  - destruct (isspace c) eqn:Hc.
    + (* one more leading whitespace character *)
      destruct IH as [sp Hsp|sp w rest ws Hsp Hne Hw Hblank Hrest].
      * exists []. constructor. now apply all_space_cons.
      * exists (w :: ws).
        apply (Tokens_word (c :: sp) w rest ws); try assumption.
        now apply all_space_cons.
    + destruct IH as [sp Hsp|sp w rest ws Hsp Hne Hw Hblank Hrest].
      * (* the character is the last token *)
        exists [[c]]. apply Tokens_single; [assumption| |now constructor].
        destruct sp as [|b sp]; [exact I|]. cbn. now apply all_space_head in Hsp.
      * destruct sp as [|b sp].
        -- (* the character starts the first token *)
           exists ((c :: w) :: ws).
           apply (Tokens_word [] (c :: w) rest ws); try assumption.
           ++ discriminate.
           ++ now apply no_space_cons.
        -- (* the character is a token of its own *)
           exists ([c] :: w :: ws). apply Tokens_single; [assumption| |].
           ++ cbn. now apply all_space_head in Hsp.
           ++ now apply Tokens_word.
Qed.

Lemma split_Tokens (s : str) : Tokens s (split s).
Proof.
  destruct (Tokens_exists s) as [ws H].
  now rewrite (Tokens_split _ _ H).
Qed.

Lemma dropwhile_decompose (s : str) :
  exists before,
    s = before ++ dropwhile isspace s /\ all_space before
    /\ (forall c rest, dropwhile isspace s = c :: rest -> isspace c = false).
Proof.
  unfold all_space. induction s as [|c s (before & Heq & Hsp & Hhead)].
  - exists []. repeat split. intros c rest H. discriminate H.
  - cbn. destruct (isspace c) eqn:Hc.
    + exists (c :: before). repeat split.
      * cbn. now rewrite <- Heq.
      * cbn. now rewrite Hc.
      * exact Hhead.
    + exists []. repeat split.
      intros c' rest H. now injection H as <- _.
Qed.

Lemma all_space_rev (s : str) : all_space s -> all_space (rev s).
Proof.
  unfold all_space. rewrite !forallb_forall.
  intros H c Hin. apply H. now apply in_rev.
Qed.

(** [strip] removes exactly the surrounding whitespace. *)
Lemma strip_Trimmed (s : str) : Trimmed s (strip s).
Proof.
  unfold Trimmed, strip, rstrip, lstrip.
  destruct (dropwhile_decompose s) as (before & Hs & Hbefore & Hfirst).
  destruct (dropwhile_decompose (rev (dropwhile isspace s)))
    as (tail & Hr & Htail & Hlast).
  set (body := dropwhile isspace s) in *.
  set (core := dropwhile isspace (rev body)) in *.
  assert (Hbody : body = rev core ++ rev tail).
  { rewrite <- rev_app_distr, <- Hr. now rewrite rev_involutive. }
  exists before, (rev tail). repeat split.
  - now rewrite <- Hbody.
  - exact Hbefore.
  - now apply all_space_rev.
  - intros c rest Hc. apply (Hfirst c (rest ++ rev tail)).
    now rewrite Hbody, Hc.
  - intros c front Hc. apply (Hlast c (rev front)).
    rewrite <- (rev_involutive core), Hc, rev_app_distr. reflexivity.
Qed.

(* ================================================================== *)
(** * The document validator *)

(** Without an installed PyMuPDF, or on a file it cannot open, the verdict
    is a read error. *)
Lemma validate_pdf_cases rt file_content t :
  (exists doc, opens_as rt file_content doc)
  \/ (exists e, fst (validate_pdf rt file_content t)
                = Return (false, lit "Error reading PDF: " ++ exn_str e, [])).
Proof.
  unfold opens_as.
  destruct (import_fitz rt) as [| |fitz] eqn:Himport.
  - right. eexists. unfold validate_pdf, _get_pymupdf. rewrite Himport. reflexivity.
  - right. eexists. unfold validate_pdf, _get_pymupdf. rewrite Himport. reflexivity.
  - destruct (fitz_open fitz file_content) as [doc|e] eqn:Hopen.
    + left. exists doc, fitz. now split.
    + right. exists e. unfold validate_pdf, _get_pymupdf. rewrite Himport.
      unfold try_except, bind at 1. unfold ret at 1.
      unfold bind at 1. unfold call at 1. rewrite Hopen. reflexivity.
Qed.

Lemma verdict_message (ok ok' : bool) (msg msg' text text' : str) :
  Return (ok, msg, text) = Return (ok', msg', text') -> msg = msg'.
Proof. intros H. now injection H. Qed.

(** Within the page limit, the verdict is that of the word check. *)
Lemma validate_pdf_within_pages rt file_content doc texts t :
  opens_as rt file_content doc -> extracts_as doc texts -> len doc <= 5 ->
  let full_text := List.concat texts in
  let word_count := len (split full_text) in
  fst (validate_pdf rt file_content t)
  = if word_count >? 10000
    then Return (false, word_limit_message word_count, [])
    else Return (true, lit "PDF is valid.", full_text).
Proof.
  intros Hopen Hx Hpages. cbv zeta.
  rewrite (validate_pdf_opened _ _ _ _ Hopen).
  destruct (Z.gtb_spec (len doc) 5) as [Hgt|_]; [lia|].
  rewrite (read_pages_extracts _ _ _ _ _ Hx). cbn [app].
  destruct (len (split (List.concat texts)) >? 10000); reflexivity.
Qed.


Lemma opens_with (doc : PdfDocument) (file_content : bytes) :
  opens_as (runtime_with (Return doc)) file_content doc.
Proof. eexists. split; reflexivity. Qed.

Lemma pdf_of_pages_extracts (texts : list str) :
  extracts_as (pdf_of_pages texts) texts.
Proof. unfold extracts_as, pdf_of_pages. now rewrite map_map. Qed.


(** A five-page PDF within the word limit is accepted. *)
Example five_pages_accepted :
  fst (validate_pdf (runtime_with (Return five_page_pdf)) [] [])
  = Return (true, lit "PDF is valid.", List.concat (repeat (words 2000) 5)).
Proof.
  rewrite (validate_pdf_within_pages _ _ _ _ _ (opens_with five_page_pdf [])
             (pdf_of_pages_extracts (repeat (words 2000) 5)))
    by (vm_compute; discriminate).
  replace (len (split (List.concat (repeat (words 2000) 5))) >? 10000)
    with false by (vm_compute; reflexivity).
  reflexivity.
Qed.

(** C2, as stated, fails: a six-page PDF whose text has 12,000 words parses
    and extracts, and its verdict is the page-count rejection, not the
    word-count rejection the claim gives to every text above 10,000
    words. *)
Lemma word_limit_claim_fails_beyond_five_pages :
  ~ word_limit_claim_as_stated (runtime_with (Return six_page_pdf)) [].
Proof.
  intros Hclaim.
  destruct (Hclaim six_page_pdf (repeat (words 2000) 6)
                   (split (List.concat (repeat (words 2000) 6))))
    as [[_ Hreject] _].
  - apply opens_with.
  - apply pdf_of_pages_extracts.
  - apply split_Tokens.
  - assert (Hmany : len (split (List.concat (repeat (words 2000) 6))) > 10000)
      by (vm_compute; reflexivity).
    apply Hreject in Hmany. vm_compute in Hmany. discriminate Hmany.
Qed.

(** C2, amended: for every PDF of at most 5 pages that parses and whose
    text extracts, the word count is the number of whitespace-delimited
    tokens of the pages' texts concatenated in page order; the verdict is
    the word-count rejection (False, the message citing the word count and
    the 10,000 limit, no text) exactly when that count exceeds 10,000, and
    the document is accepted otherwise, in particular at exactly 10,000
    words. *)
Theorem validate_pdf_word_limit rt file_content doc texts ws t :
  opens_as rt file_content doc -> extracts_as doc texts -> len doc <= 5 ->
  Tokens (List.concat texts) ws ->
  len (split (List.concat texts)) = len ws
  /\ (fst (validate_pdf rt file_content t)
      = Return (false, word_limit_message (len ws), lit "")
      <-> len ws > 10000)
  /\ (len ws <= 10000 ->
      fst (validate_pdf rt file_content t)
      = Return (true, lit "PDF is valid.", List.concat texts))
  /\ (len ws = 10000 ->
      fst (validate_pdf rt file_content t)
      = Return (true, lit "PDF is valid.", List.concat texts)).
Proof.
  intros Hopen Hx Hpages Htokens.
  apply Tokens_split in Htokens.
  rewrite (validate_pdf_within_pages _ _ _ _ _ Hopen Hx Hpages), Htokens.
  split; [reflexivity|].
  destruct (Z.gtb_spec (len ws) 10000) as [Hgt|Hle].
  - split; [|split]; [|lia|lia]. split; [lia|reflexivity].
  - split; [|split]; [|reflexivity|reflexivity].
    split; [|lia]. intros H. discriminate H.
Qed.

Lemma validate_pdf_word_limit_witness :
  len five_page_pdf <= 5
  /\ len (split (List.concat (repeat (words 2000) 5))) = 10000
  /\ fst (validate_pdf (runtime_with (Return five_page_pdf)) [] [])
     = Return (true, lit "PDF is valid.", List.concat (repeat (words 2000) 5)).
Proof.
  assert (H5 : len five_page_pdf <= 5) by (vm_compute; discriminate).
  assert (Hwords : len (split (List.concat (repeat (words 2000) 5))) = 10000)
    by (vm_compute; reflexivity).
  split; [exact H5|]. split; [exact Hwords|].
  exact (proj2 (proj2 (proj2 (validate_pdf_word_limit
           (runtime_with (Return five_page_pdf)) [] five_page_pdf
           (repeat (words 2000) 5)
           (split (List.concat (repeat (words 2000) 5))) []
           (opens_with five_page_pdf [])
           (pdf_of_pages_extracts (repeat (words 2000) 5))
           H5 (split_Tokens _)))) Hwords).
Defined.

(** One word more than 10,000, on five pages, is rejected on its words. *)
Example five_wordy_pages_rejected :
  fst (validate_pdf (runtime_with (Return wordy_five_page_pdf)) [] [])
  = Return (false, lit "PDF has 10001 words. Maximum allowed is 10,000.", lit "").
Proof. vm_compute. reflexivity. Qed.

Lemma pages_read_app (t t' : Trace) :
  pages_read (t ++ t') = pages_read t ++ pages_read t'.
Proof. unfold pages_read. apply flat_map_app. Qed.

(** C10: when a PDF has more than 5 pages (so also when it exceeds both
    limits), [validate_pdf] rejects it on its page count after opening it
    and nothing else: no page's text is asked for, so no word count is
    computed; and a word-count rejection only comes from a document of at
    most 5 pages, whose text extracted and has more than 10,000 words. *)
Theorem validate_pdf_checks_pages_first rt file_content t :
  (forall doc,
     opens_as rt file_content doc -> len doc > 5 ->
     validate_pdf rt file_content t
     = (Return (false, page_limit_message (len doc), lit ""),
        t ++ [FitzOpen file_content])
     /\ pages_read (snd (validate_pdf rt file_content t)) = pages_read t)
  /\ (forall n,
        fst (validate_pdf rt file_content t)
        = Return (false, word_limit_message n, lit "") ->
        exists doc texts,
          opens_as rt file_content doc /\ len doc <= 5
          /\ extracts_as doc texts
          /\ len (split (List.concat texts)) > 10000).
Proof.
  split.
  - intros doc Hopen Hgt.
    rewrite (validate_pdf_opened _ _ _ _ Hopen).
    destruct (Z.gtb_spec (len doc) 5) as [_|Hle]; [|lia].
    split; [reflexivity|].
    cbn [snd]. rewrite pages_read_app. cbn. apply app_nil_r.
  - intros n Hword.
    destruct (validate_pdf_cases rt file_content t) as [[doc Hopen]|[e He]].
    + rewrite (validate_pdf_opened _ _ _ _ Hopen) in Hword.
      destruct (Z.gtb_spec (len doc) 5) as [Hgt|Hle].
      * apply verdict_message in Hword.
        now apply page_message_not_word_message in Hword.
      * destruct (extracts_or_raises doc)
          as [[texts Hx]|(good & texts & e & rest & -> & Hx)].
        -- exists doc, texts. repeat split; try assumption.
           rewrite (read_pages_extracts _ _ _ _ _ Hx) in Hword. cbn [app] in Hword.
           destruct (Z.gtb_spec (len (split (List.concat texts))) 10000)
             as [Hmany|_]; [lia|discriminate Hword].
        -- rewrite (read_pages_raises _ _ _ _ _ _ _ Hx) in Hword.
           apply verdict_message in Hword. symmetry in Hword.
           now apply word_message_not_error in Hword.
    + rewrite He in Hword. apply verdict_message in Hword. symmetry in Hword.
      now apply word_message_not_error in Hword.
Qed.

Lemma validate_pdf_checks_pages_first_witness :
  len six_page_pdf > 5
  /\ len (split (List.concat (repeat (words 2000) 6))) > 10000
  /\ validate_pdf (runtime_with (Return six_page_pdf)) [] []
     = (Return (false, page_limit_message (len six_page_pdf), lit ""),
        [] ++ [FitzOpen []]).
Proof.
  assert (H6 : len six_page_pdf > 5) by (vm_compute; reflexivity).
  split; [exact H6|]. split; [vm_compute; reflexivity|].
  exact (proj1 (proj1 (validate_pdf_checks_pages_first
                         (runtime_with (Return six_page_pdf)) [] [])
                      six_page_pdf (opens_with six_page_pdf []) H6)).
Defined.

(** The page check comes first whatever the pages hold: a six-page PDF
    whose text cannot be extracted is rejected on its page count. *)
Example unreadable_six_pages_rejected_on_pages :
  validate_pdf (runtime_with (Return unreadable_six_page_pdf)) [] []
  = (Return (false, lit "PDF has 6 pages. Maximum allowed is 5.", lit ""),
     [FitzOpen []]).
Proof. vm_compute. reflexivity. Qed.

(** C6: [validate_pdf] never raises: on every input it returns a triple;
    and a missing or stub PyMuPDF, a file that does not open, or a page
    whose text extraction fails is returned as the validation failure
    (False, "Error reading PDF: " and the error's text, empty text). *)
Theorem validate_pdf_never_raises rt file_content t :
  (exists ok message text,
     fst (validate_pdf rt file_content t) = Return (ok, message, text))
  /\ (forall e, fst (validate_pdf rt file_content t) <> Raise e)
  /\ (import_fitz rt = ModuleNotFound ->
      fst (validate_pdf rt file_content t)
      = Return (false,
                lit "Error reading PDF: "
                ++ lit "PyMuPDF not installed. Install it with:  pip install PyMuPDF",
                lit ""))
  /\ (import_fitz rt = StubWithoutOpen ->
      exists reason,
        fst (validate_pdf rt file_content t)
        = Return (false, lit "Error reading PDF: " ++ reason, lit ""))
  /\ (forall fitz e,
        import_fitz rt = FitzModule fitz ->
        fitz_open fitz file_content = Raise e ->
        fst (validate_pdf rt file_content t)
        = Return (false, lit "Error reading PDF: " ++ exn_str e, lit ""))
  /\ (forall good texts e rest,
        opens_as rt file_content (good ++ {| get_text := Raise e |} :: rest) ->
        extracts_as good texts ->
        len (good ++ {| get_text := Raise e |} :: rest) <= 5 ->
        fst (validate_pdf rt file_content t)
        = Return (false, lit "Error reading PDF: " ++ exn_str e, lit "")).
Proof.
  assert (Hreturns : exists ok message text,
             fst (validate_pdf rt file_content t) = Return (ok, message, text)).
  { destruct (validate_pdf_cases rt file_content t) as [[doc Hopen]|[e He]].
    - rewrite (validate_pdf_opened _ _ _ _ Hopen).
      destruct (len doc >? 5); [now eexists _, _, _|].
      destruct (read_pages doc 0 [] (t ++ [FitzOpen file_content]))
        as [[full_text|e] t'].
      + destruct (len (split full_text) >? 10000); now eexists _, _, _.
      + now eexists _, _, _.
    - rewrite He. now eexists _, _, _. }
  split; [exact Hreturns|]. split; [|split; [|split; [|split]]].
  - intros e He. destruct Hreturns as (ok & message & text & H).
    rewrite H in He. discriminate He.
  - intros Himport. unfold validate_pdf, _get_pymupdf. rewrite Himport. reflexivity.
  - intros Himport. eexists.
    unfold validate_pdf, _get_pymupdf. rewrite Himport. reflexivity.
  - intros fitz e Himport Hopen.
    unfold validate_pdf, _get_pymupdf. rewrite Himport.
    unfold try_except, bind at 1. unfold ret at 1.
    unfold bind at 1. unfold call at 1. rewrite Hopen. reflexivity.
  - intros good texts e rest Hopen Hx Hpages.
    rewrite (validate_pdf_opened _ _ _ _ Hopen).
    destruct (Z.gtb_spec (len (good ++ {| get_text := Raise e |} :: rest)) 5)
      as [Hgt|_]; [lia|].
    now rewrite (read_pages_raises _ _ _ _ _ _ _ Hx).
Qed.

Lemma validate_pdf_never_raises_witness :
  fst (validate_pdf (runtime_with (Raise not_a_pdf)) [] [])
  = Return (false, lit "Error reading PDF: " ++ exn_str not_a_pdf, lit "").
Proof.
  exact (proj1 (proj2 (proj2 (proj2 (proj2
           (validate_pdf_never_raises (runtime_with (Raise not_a_pdf)) [] [])))))
           {| fitz_open := fun _ => Raise not_a_pdf |} not_a_pdf
           eq_refl eq_refl).
Defined.

(** Bytes that are no PDF give the verdict a message to display. *)
Example corrupt_file_reported :
  fst (validate_pdf (runtime_with (Raise not_a_pdf)) [] [])
  = Return (false, lit "Error reading PDF: Failed to open stream", lit "").
Proof. vm_compute. reflexivity. Qed.

(* ================================================================== *)
(** * The chunker *)

Lemma splitter_calls_app (t t' : Trace) :
  splitter_calls (t ++ t') = splitter_calls t ++ splitter_calls t'.
Proof. unfold splitter_calls. apply flat_map_app. Qed.

Lemma splitter_calls_get_text (pages : list nat) :
  splitter_calls (map GetText pages) = [].
Proof. induction pages as [|n pages IH]; [reflexivity|exact IH]. Qed.

(** The chunk arguments are never read. *)
Lemma process_pdf_and_split_ignores_arguments rt file_content
    (chunk_size chunk_overlap chunk_size' chunk_overlap' : Z) :
  process_pdf_and_split rt file_content chunk_size chunk_overlap
  = process_pdf_and_split rt file_content chunk_size' chunk_overlap'.
Proof. reflexivity. Qed.

(** X1: whatever the file and the arguments, every splitter
    [process_pdf_and_split] uses is the one of size 1000 and overlap 200,
    with the separators in the order paragraph, line, sentence, space, any
    character. *)
Lemma process_pdf_and_split_splitter rt file_content chunk_size chunk_overlap t :
  exists calls,
    splitter_calls
      (snd (process_pdf_and_split rt file_content chunk_size chunk_overlap t))
    = splitter_calls t ++ calls
    /\ Forall (eq fixed_splitter) calls.
Proof.
  unfold process_pdf_and_split, _get_pymupdf.
  destruct (import_fitz rt) as [| |fitz].
  - exists []. split; [now rewrite app_nil_r|constructor].
  - exists []. split; [now rewrite app_nil_r|constructor].
  - unfold try_except, bind at 1. unfold ret at 1.
    unfold bind at 1. unfold call at 1.
    destruct (fitz_open fitz file_content) as [doc|e].
    + unfold bind at 1.
      destruct (read_pages_trace doc 0 (lit "") (t ++ [FitzOpen file_content]))
        as [k Hk].
      destruct (read_pages doc 0 (lit "") (t ++ [FitzOpen file_content]))
        as [[full_text|e] t'] eqn:Hread; cbn [snd] in Hk; subst t'.
      * unfold bind, call, ret.
        exists [fixed_splitter]. split; [|now constructor].
        destruct (split_text rt _ full_text); unfold raise; cbn [snd];
          rewrite !splitter_calls_app, splitter_calls_get_text;
          cbn [splitter_calls flat_map app]; now rewrite !app_nil_r.
      * exists []. split; [|constructor]. unfold raise. cbn [snd].
        rewrite !splitter_calls_app, splitter_calls_get_text.
        cbn. now rewrite !app_nil_r.
    + exists []. split; [|constructor]. unfold raise. cbn [snd].
      rewrite splitter_calls_app. cbn. now rewrite !app_nil_r.
Qed.

(** C1 (the code does not do this): called with [chunk_size=500] and
    [chunk_overlap=50] on a one-page PDF of 1,200 characters,
    [process_pdf_and_split] configures the splitter with size 1000 and
    overlap 200, not with its arguments, and returns that splitter's 2
    chunks where the requested splitter gives 3; the separators are in the
    order paragraph, line, sentence, space, any character. *)
Theorem process_pdf_and_split_uses_fixed_sizes :
  let rt := runtime_with (Return one_page_pdf) in
  process_pdf_and_split rt [] 500 50 []
  = (split_text rt fixed_splitter long_page,
     [FitzOpen []; GetText 0; SplitText fixed_splitter long_page])
  /\ process_pdf_and_split rt [] 500 50 []
     = process_pdf_and_split rt [] default_chunk_size default_chunk_overlap []
  /\ fixed_splitter <> requested_splitter 500 50
  /\ (exists a b, split_text rt fixed_splitter long_page = Return [a; b])
  /\ (exists a b c,
        split_text rt (requested_splitter 500 50) long_page = Return [a; b; c])
  /\ separators fixed_splitter
     = [[newline; newline]; [newline]; lit "."; lit " "; lit ""].
Proof.
  cbv zeta. split; [|split; [|split; [|split; [|split]]]].
  - unfold process_pdf_and_split, _get_pymupdf, one_page_pdf, pdf_of_pages.
    cbn [runtime_with import_fitz fitz_open split_text map].
    unfold try_except, bind, call, ret. cbn [read_pages get_text app].
    unfold bind, call, ret. cbn [app]. reflexivity.
  - reflexivity.
  - intros H. discriminate H.
  - vm_compute. now eexists _, _.
  - vm_compute. now eexists _, _, _.
  - reflexivity.
Qed.

(* ================================================================== *)
(** * The content fingerprinter *)

Lemma be_bytes_range (n : nat) (x : Z) :
  Forall (fun b => 0 <= b < 256) (Sha256.be_bytes n x).
Proof.
  induction n as [|n IH]; cbn [Sha256.be_bytes]; constructor; [|exact IH].
  change 255 with (Z.ones 8). rewrite Z.land_ones by lia.
  apply Z.mod_pos_bound. lia.
Qed.

Lemma digest_range (h : Sha256.state) :
  Forall (fun b => 0 <= b < 256) (Sha256.digest h).
Proof.
  unfold Sha256.digest.
  induction (Sha256.words_of_state h) as [|w ws IH]; cbn [flat_map].
  - constructor.
  - apply Forall_app. split; [apply be_bytes_range|exact IH].
Qed.







(** The test vectors of FIPS 180-4: the empty message, [abc], and a
    message of two blocks. *)
Example sha256_empty :
  get_pdf_hash []
  = lit "e3b0c44298fc1c149afbf4c8996fb92427ae41e4649b934ca495991b7852b855".
Proof. vm_compute. reflexivity. Qed.

Example sha256_abc :
  get_pdf_hash (list_byte_of_string "abc")
  = lit "ba7816bf8f01cfea414140de5dae2223b00361a396177a9cb410ff61f20015ad".
Proof. vm_compute. reflexivity. Qed.

Example sha256_two_blocks :
  get_pdf_hash
    (list_byte_of_string "abcdbcdecdefdefgefghfghighijhijkijkljklmklmnlmnomnopnopq")
  = lit "248d6a61d20638b8e5c026930c3e6039a33ce45964ff2167f6ecedd419db06c1".
Proof. vm_compute. reflexivity. Qed.

(** One changed bit changes the fingerprint. *)
Example sha256_one_bit :
  get_pdf_hash (list_byte_of_string "abc")
  <> get_pdf_hash (list_byte_of_string "abb").
Proof. vm_compute. intros H. discriminate H. Qed.

(* ================================================================== *)
(** * The existence check and the ingestion path *)

Lemma placeholder_vector_zero :
  len placeholder_vector = 1536 /\ Forall (fun x => x = 0%Q) placeholder_vector.
Proof.
  split; [vm_compute; reflexivity|].
  apply Forall_forall. intros x Hx. now apply repeat_spec in Hx.
Qed.

(** The existence check is one query; its failure is printed and read as
    "not indexed". *)
Lemma is_document_already_indexed_run (index : Index) (pdf_hash : str) (t : Trace) :
  is_document_already_indexed index pdf_hash t
  = match index_query index placeholder_vector 1 (doc_hash_filter pdf_hash) with
    | Return results =>
        (Return (len (matches results) >? 0),
         t ++ [IndexQuery placeholder_vector 1 (doc_hash_filter pdf_hash)])
    | Raise e =>
        (Return false,
         (t ++ [IndexQuery placeholder_vector 1 (doc_hash_filter pdf_hash)])
         ++ [Printed (lit "Error checking existing doc: " ++ exn_str e)])
    end.
Proof.
  unfold is_document_already_indexed, placeholder_vector, doc_hash_filter.
  unfold_monad.
  now destruct (index_query index (repeat 0%Q 1536) 1
                            (FieldEq (lit "doc_hash") pdf_hash)).
Qed.

(** C5: [is_document_already_indexed] asks the index once, with the
    all-zero vector of 1536 entries and the filter [doc_hash = pdf_hash];
    it returns True exactly when that query answers at least one match;
    when the query raises it returns False and raises nothing. *)
Theorem is_document_already_indexed_fail_open (index : Index) (pdf_hash : str)
    (t : Trace) :
  let answer :=
    index_query index placeholder_vector 1 (doc_hash_filter pdf_hash) in
  (len placeholder_vector = 1536 /\ Forall (fun x => x = 0%Q) placeholder_vector)
  /\ (fst (is_document_already_indexed index pdf_hash t) = Return true
      <-> exists results m ms,
            answer = Return results /\ matches results = m :: ms)
  /\ (forall e,
        answer = Raise e ->
        is_document_already_indexed index pdf_hash t
        = (Return false,
           t ++ [IndexQuery placeholder_vector 1 (doc_hash_filter pdf_hash);
                 Printed (lit "Error checking existing doc: " ++ exn_str e)]))
  /\ (forall e, fst (is_document_already_indexed index pdf_hash t) <> Raise e).
Proof.
  cbv zeta. rewrite is_document_already_indexed_run.
  split; [exact placeholder_vector_zero|].
  destruct (index_query index placeholder_vector 1 (doc_hash_filter pdf_hash))
    as [results|e0].
  - split; [|split].
    + cbn [fst]. split.
      * intros H. injection H as H.
        exists results. destruct (matches results) as [|m ms]; [discriminate H|].
        now exists m, ms.
      * intros (results' & m & ms & Heq & Hm). injection Heq as <-.
        rewrite Hm. reflexivity.
    + intros e He. discriminate He.
    + intros e He. discriminate He.
  - split; [|split].
    + cbn [fst]. split; [intros H; discriminate H|].
      intros (results & m & ms & Heq & _). discriminate Heq.
    + intros e He. injection He as <-. now rewrite <- app_assoc.
    + intros e He. discriminate He.
Qed.

Lemma is_document_already_indexed_fail_open_witness :
  is_document_already_indexed (unreachable_index service_down) sample_hash []
  = (Return false,
     [] ++ [IndexQuery placeholder_vector 1 (doc_hash_filter sample_hash);
            Printed (lit "Error checking existing doc: " ++ exn_str service_down)]).
Proof.
  exact (proj1 (proj2 (proj2
           (is_document_already_indexed_fail_open
              (unreachable_index service_down) sample_hash [])))
           service_down eq_refl).
Defined.

(** An index that holds the fingerprint answers the check with True, one
    that holds another document's chunks with False. *)
Example indexed_fingerprint_found :
  fst (is_document_already_indexed indexed_once sample_hash []) = Return true.
Proof. rewrite is_document_already_indexed_run. vm_compute. reflexivity. Qed.

Example other_fingerprint_not_found :
  fst (is_document_already_indexed indexed_once (get_pdf_hash []) [])
  = Return false.
Proof. rewrite is_document_already_indexed_run. vm_compute. reflexivity. Qed.







(** A document that is not in the index yet is written, after the check. *)
Example new_document_ingested :
  upsert_calls
    (snd (ingest_document (runtime_with (Return one_page_pdf)) (index_of [])
            [lit "first chunk"; lit "second chunk"]
            {| embedding_model := lit "text-embedding-3-small" |}
            (lit "fingerprint") []))
  = [([lit "first chunk"; lit "second chunk"],
      [ {| doc_hash := lit "fingerprint"; chunk_id := 0 |};
        {| doc_hash := lit "fingerprint"; chunk_id := 1 |} ])].
Proof.
  unfold ingest_document, bind at 1.
  rewrite is_document_already_indexed_run.
  vm_compute. reflexivity.
Qed.

(* ================================================================== *)
(** * The answer synthesizer *)

(** The template has the 823 characters of the source's literal. *)
Example rag_template_length : len rag_template = 823.
Proof. vm_compute. reflexivity. Qed.

(** The template is its head, the two fields and the two headings. *)
Lemma rag_template_shape :
  rag_template
  = template_head ++ lit "{context}" ++ question_heading
    ++ lit "{query}" ++ answer_heading.
Proof. vm_compute. reflexivity. Qed.

Lemma template_head_end :
  skipn 772 template_head = lit "---" ++ [newline] ++ lit "Context:" ++ [newline].
Proof. vm_compute. reflexivity. Qed.

Lemma parse_rag_template :
  parse_template rag_template [] None
  = Return [Text template_head; Field (lit "context"); Text question_heading;
            Field (lit "query"); Text answer_heading].
Proof. vm_compute. reflexivity. Qed.

(** Formatting the template puts the context and the query in their
    places. *)
Lemma format_rag_template (context query : str) :
  format rag_template [(lit "query", query); (lit "context", context)]
  = Return (rag_prompt context query).
Proof.
  unfold format. rewrite parse_rag_template. cbn [render].
  replace (lookup (lit "context") [(lit "query", query); (lit "context", context)])
    with (Some context) by (vm_compute; reflexivity).
  replace (lookup (lit "query") [(lit "query", query); (lit "context", context)])
    with (Some query) by (vm_compute; reflexivity).
  unfold rag_prompt. now rewrite app_nil_r.
Qed.

Lemma context_of_docs (docs : list Document) :
  match docs with
  | _ :: _ => join [newline; newline] (map page_content docs)
  | [] => lit "No relevant context found."
  end = context_of docs.
Proof. unfold context_of, no_context. destruct docs; reflexivity. Qed.

(** [query_llm_with_rag], call by call. *)
Lemma query_llm_with_rag_run query vector_store llm top_k t :
  query_llm_with_rag query vector_store llm top_k t
  = match get_relevant_documents vector_store query top_k with
    | Raise e => (Return (error_answer e), t ++ [Retrieve query top_k])
    | Return docs =>
        let prompt := rag_prompt (context_of docs) query in
        match invoke llm prompt with
        | Return response =>
            (Return (strip response),
             t ++ [Retrieve query top_k; LLMInvoke prompt])
        | Raise e =>
            (Return (error_answer e),
             t ++ [Retrieve query top_k; LLMInvoke prompt])
        end
    end.
Proof.
  unfold query_llm_with_rag, create_rag_prompt_template, error_answer.
  unfold try_except, bind at 1. unfold call at 1.
  destruct (get_relevant_documents vector_store query top_k) as [docs|e];
    [|reflexivity].
  rewrite context_of_docs. unfold bind at 1. unfold lift.
  rewrite format_rag_template. cbv zeta.
  unfold bind, call, ret.
  destruct (invoke llm (rag_prompt (context_of docs) query));
    now rewrite <- app_assoc.
Qed.

(** C8: [query_llm_with_rag] always returns a string; when retrieval
    raises, or when the model raises on the prompt, the string is
    "Error querying LLM: " followed by the error's text, and nothing is
    raised. *)
Theorem query_llm_with_rag_never_raises query vector_store llm top_k t :
  (exists answer,
     fst (query_llm_with_rag query vector_store llm top_k t) = Return answer)
  /\ (forall e,
        get_relevant_documents vector_store query top_k = Raise e ->
        fst (query_llm_with_rag query vector_store llm top_k t)
        = Return (lit "Error querying LLM: " ++ exn_str e))
  /\ (forall docs e,
        get_relevant_documents vector_store query top_k = Return docs ->
        invoke llm (rag_prompt (context_of docs) query) = Raise e ->
        fst (query_llm_with_rag query vector_store llm top_k t)
        = Return (lit "Error querying LLM: " ++ exn_str e)).
Proof.
  rewrite query_llm_with_rag_run.
  destruct (get_relevant_documents vector_store query top_k) as [docs|e0].
  - cbv zeta.
    destruct (invoke llm (rag_prompt (context_of docs) query))
      as [response|e1] eqn:Hllm.
    + split; [now eexists|]. split.
      * intros e He. discriminate He.
      * intros docs' e He. injection He as <-. rewrite Hllm. intros H.
        discriminate H.
    + split; [now eexists|]. split.
      * intros e He. discriminate He.
      * intros docs' e He. injection He as <-. rewrite Hllm. intros H.
        now injection H as <-.
  - split; [now eexists|]. split.
    + intros e He. now injection He as <-.
    + intros docs e He. discriminate He.
Qed.

Lemma query_llm_with_rag_never_raises_witness :
  fst (query_llm_with_rag (lit "What is the title?") (store_of [long_page])
         (chat_model_answering (Raise service_down)) default_top_k [])
  = Return (lit "Error querying LLM: " ++ exn_str service_down).
Proof.
  exact (proj2 (proj2 (query_llm_with_rag_never_raises
                         (lit "What is the title?") (store_of [long_page])
                         (chat_model_answering (Raise service_down))
                         default_top_k []))
               _ service_down eq_refl eq_refl).
Defined.

(** A model failure is displayed as text. *)
Example model_failure_displayed :
  fst (query_llm_with_rag (lit "What is the title?") (store_of [long_page])
         (chat_model_answering (Raise service_down)) default_top_k [])
  = Return (lit "Error querying LLM: service unavailable").
Proof. rewrite query_llm_with_rag_run. vm_compute. reflexivity. Qed.

Lemma llm_calls_app (t t' : Trace) :
  llm_calls (t ++ t') = llm_calls t ++ llm_calls t'.
Proof. unfold llm_calls. apply flat_map_app. Qed.

(** C9: when retrieval returns no document, the model is still invoked,
    once, with the prompt whose context is "No relevant context found.";
    and whenever retrieval and the model succeed, the answer is the model's
    response without its leading and trailing whitespace. *)
Theorem query_llm_with_rag_empty_context query vector_store llm top_k t :
  (get_relevant_documents vector_store query top_k = Return [] ->
   llm_calls (snd (query_llm_with_rag query vector_store llm top_k t))
   = llm_calls t ++ [rag_prompt (lit "No relevant context found.") query]
   /\ format rag_template
        [(lit "query", query); (lit "context", lit "No relevant context found.")]
      = Return (rag_prompt (lit "No relevant context found.") query))
  /\ (forall docs response,
        get_relevant_documents vector_store query top_k = Return docs ->
        invoke llm (rag_prompt (context_of docs) query) = Return response ->
        fst (query_llm_with_rag query vector_store llm top_k t)
        = Return (strip response)
        /\ Trimmed response (strip response)).
Proof.
  rewrite query_llm_with_rag_run. split.
  - intros Hnone. rewrite Hnone. cbv zeta.
    split; [|apply format_rag_template].
    change (context_of []) with (lit "No relevant context found.").
    destruct (invoke llm (rag_prompt (lit "No relevant context found.") query));
      cbn [snd]; rewrite llm_calls_app; reflexivity.
  - intros docs response Hdocs Hllm. rewrite Hdocs. cbv zeta. rewrite Hllm.
    split; [reflexivity|apply strip_Trimmed].
Qed.

Lemma query_llm_with_rag_empty_context_witness :
  llm_calls (snd (query_llm_with_rag (lit "What is the title?") (store_of [])
                    (chat_model_answering (Return (lit "  No title.  ")))
                    default_top_k []))
  = llm_calls []
    ++ [rag_prompt (lit "No relevant context found.") (lit "What is the title?")].
Proof.
  exact (proj1 (proj1 (query_llm_with_rag_empty_context
                         (lit "What is the title?") (store_of [])
                         (chat_model_answering (Return (lit "  No title.  ")))
                         default_top_k [])
                      eq_refl)).
Defined.

(** With nothing retrieved, the model's answer comes back trimmed. *)
Example empty_retrieval_answered :
  fst (query_llm_with_rag (lit "What is the title?") (store_of [])
         (chat_model_answering (Return (lit "  No title.  "))) default_top_k [])
  = Return (lit "No title.").
Proof. rewrite query_llm_with_rag_run. vm_compute. reflexivity. Qed.

(** Retrieved texts are joined by blank lines. *)
Example context_of_two_documents :
  context_of [ {| page_content := lit "one" |}; {| page_content := lit "two" |} ]
  = lit "one" ++ [newline; newline] ++ lit "two".
Proof. reflexivity. Qed.

(* ================================================================== *)
(** * More on the chunker and the validator *)

(** [process_pdf_and_split] on a file that opens. *)
Lemma process_pdf_and_split_opened rt file_content chunk_size chunk_overlap doc t :
  opens_as rt file_content doc ->
  process_pdf_and_split rt file_content chunk_size chunk_overlap t
  = match read_pages doc 0 [] (t ++ [FitzOpen file_content]) with
    | (Return full_text, t') =>
        (match split_text rt fixed_splitter full_text with
         | Return chunks => Return chunks
         | Raise e => Raise (processing_error e)
         end,
         t' ++ [SplitText fixed_splitter full_text])
    | (Raise e, t') => (Raise (processing_error e), t')
    end.
Proof.
  intros (fitz & Himport & Hopen).
  unfold process_pdf_and_split, _get_pymupdf. rewrite Himport.
  unfold try_except, bind at 1. unfold ret at 1.
  unfold bind at 1. unfold call at 1. rewrite Hopen.
  unfold bind at 1. rewrite lit_empty.
  destruct (read_pages doc 0 [] (t ++ [FitzOpen file_content]))
    as [[full_text|e] t']; [|reflexivity].
  unfold bind, call, ret, raise, fixed_splitter.
  now destruct (split_text rt _ full_text).
Qed.




(** X4: a verdict of [validate_pdf] that accepts comes with the message
    "PDF is valid." and the text of a document of at most 5 pages, the
    pages' texts in page order, of at most 10,000 words; a verdict that
    rejects carries no text. *)
Theorem validate_pdf_verdict rt file_content t ok message text :
  fst (validate_pdf rt file_content t) = Return (ok, message, text) ->
  (ok = true ->
   message = lit "PDF is valid."
   /\ len (split text) <= 10000
   /\ exists doc texts,
        opens_as rt file_content doc /\ len doc <= 5
        /\ extracts_as doc texts /\ text = List.concat texts)
  /\ (ok = false -> text = []).
Proof.
  intros Hrun.
  destruct (validate_pdf_cases rt file_content t) as [[doc Hopen]|[e He]].
  - rewrite (validate_pdf_opened _ _ _ _ Hopen) in Hrun.
    destruct (Z.gtb_spec (len doc) 5) as [Hgt|Hle].
    + injection Hrun as <- _ <-. split; [intros H; discriminate H|reflexivity].
    + destruct (extracts_or_raises doc)
        as [[texts Hx]|(good & texts & e & rest & -> & Hx)].
      * rewrite (read_pages_extracts _ _ _ _ _ Hx) in Hrun. cbn [app] in Hrun.
        destruct (Z.gtb_spec (len (split (List.concat texts))) 10000)
          as [Hmany|Hfew].
        -- injection Hrun as <- _ <-.
           split; [intros H; discriminate H|reflexivity].
        -- cbn [fst] in Hrun.
           assert (Hok : ok = true) by congruence.
           assert (Hmsg : lit "PDF is valid." = message)
             by (apply (verdict_message _ _ _ _ _ _ Hrun)).
           assert (Htext : List.concat texts = text) by congruence.
           subst ok message text.
           split; [|intros H; discriminate H].
           intros _. split; [reflexivity|]. split; [exact Hfew|].
           now exists doc, texts.
      * rewrite (read_pages_raises _ _ _ _ _ _ _ Hx) in Hrun.
        injection Hrun as <- _ <-.
        split; [intros H; discriminate H|reflexivity].
  - rewrite He in Hrun. injection Hrun as <- _ <-.
    split; [intros H; discriminate H|reflexivity].
Qed.

Lemma validate_pdf_verdict_witness :
  lit "PDF is valid." = lit "PDF is valid."
  /\ len (split (List.concat (repeat (words 2000) 5))) <= 10000
  /\ exists doc texts,
       opens_as (runtime_with (Return five_page_pdf)) [] doc /\ len doc <= 5
       /\ extracts_as doc texts
       /\ List.concat (repeat (words 2000) 5) = List.concat texts.
Proof.
  exact (proj1 (validate_pdf_verdict (runtime_with (Return five_page_pdf)) [] []
                  true (lit "PDF is valid.")
                  (List.concat (repeat (words 2000) 5)) five_pages_accepted)
               eq_refl).
Defined.

(** X5: the text of an accepted verdict is the text that is chunked: when
    [validate_pdf] accepts a file with text [text], [process_pdf_and_split]
    on that file opens it once, reads its pages (at most 5) in order,
    gives exactly [text] to the splitter, once, and returns the splitter's
    chunks. *)
Theorem accepted_text_is_chunked rt file_content chunk_size chunk_overlap
    t t' message text :
  fst (validate_pdf rt file_content t) = Return (true, message, text) ->
  exists pages,
    (pages <= 5)%nat
    /\ process_pdf_and_split rt file_content chunk_size chunk_overlap t'
       = (match split_text rt fixed_splitter text with
          | Return chunks => Return chunks
          | Raise e => Raise (processing_error e)
          end,
          t' ++ [FitzOpen file_content] ++ map GetText (seq 0 pages)
             ++ [SplitText fixed_splitter text]).
Proof.
  intros Haccept.
  destruct (validate_pdf_cases rt file_content t) as [[doc Hopen]|[e He]].
  - rewrite (validate_pdf_opened _ _ _ _ Hopen) in Haccept.
    destruct (Z.gtb_spec (len doc) 5) as [Hgt|Hle]; [discriminate Haccept|].
    destruct (extracts_or_raises doc)
      as [[texts Hx]|(good & texts & e & rest & -> & Hx)].
    + rewrite (read_pages_extracts _ _ _ _ _ Hx) in Haccept. cbn [app] in Haccept.
      destruct (len (split (List.concat texts)) >? 10000);
        [discriminate Haccept|].
      cbn [fst] in Haccept.
      assert (Htext : List.concat texts = text) by congruence. subst text.
      exists (List.length doc). split; [unfold len in Hle; lia|].
      rewrite (process_pdf_and_split_opened _ _ _ _ _ _ Hopen).
      rewrite (read_pages_extracts _ _ _ _ _ Hx). cbn [app].
      now rewrite <- !app_assoc.
    + rewrite (read_pages_raises _ _ _ _ _ _ _ Hx) in Haccept.
      discriminate Haccept.
  - rewrite He in Haccept. discriminate Haccept.
Qed.

Lemma accepted_text_is_chunked_witness :
  exists pages,
    (pages <= 5)%nat
    /\ process_pdf_and_split (runtime_with (Return five_page_pdf)) [] 1000 200 []
       = (match split_text (runtime_with (Return five_page_pdf)) fixed_splitter
                  (List.concat (repeat (words 2000) 5)) with
          | Return chunks => Return chunks
          | Raise e => Raise (processing_error e)
          end,
          [] ++ [FitzOpen []] ++ map GetText (seq 0 pages)
             ++ [SplitText fixed_splitter (List.concat (repeat (words 2000) 5))]).
Proof.
  exact (accepted_text_is_chunked (runtime_with (Return five_page_pdf)) []
           1000 200 [] [] (lit "PDF is valid.")
           (List.concat (repeat (words 2000) 5)) five_pages_accepted).
Defined.

(* ================================================================== *)
(** * Words across page boundaries *)

Lemma split_scan_length_word (s w1 w2 : str) :
  w1 <> [] -> w2 <> [] ->
  List.length (split_scan s w1) = List.length (split_scan s w2).
Proof.
  revert w1 w2. induction s as [|c s IH]; intros w1 w2 H1 H2.
  - destruct w1, w2; try contradiction; reflexivity.
  - cbn [split_scan]. destruct (isspace c).
    + destruct w1, w2; try contradiction; reflexivity.
    + apply IH; intros H; now apply app_eq_nil in H as [_ H].
Qed.

Lemma split_scan_length_bounds (s w : str) :
  (List.length (split_scan s []) <= List.length (split_scan s w)
   <= S (List.length (split_scan s [])))%nat.
Proof.
  destruct w as [|b w]; [lia|].
  destruct s as [|c s]; [cbn; lia|].
  cbn [split_scan]. destruct (isspace c).
  - cbn [List.length]. lia.
  - rewrite (split_scan_length_word s ((b :: w) ++ [c]) ([] ++ [c]));
      [lia|discriminate|discriminate].
Qed.

Lemma split_scan_app_length (a b w : str) :
  (List.length (split_scan (a ++ b) w)
   <= List.length (split_scan a w) + List.length (split_scan b []))%nat.
Proof.
  revert w. induction a as [|c a IH]; intros w.
  - cbn [app]. pose proof (split_scan_length_bounds b w) as Hb.
    destruct w as [|x w]; cbn [split_scan List.length]; lia.
  - cbn [app split_scan]. destruct (isspace c).
    + destruct w as [|x w]; [apply IH|].
      cbn [List.length]. specialize (IH []). lia.
    + apply IH.
Qed.

Lemma split_app_length (a b : str) :
  len (split (a ++ b)) <= len (split a) + len (split b).
Proof.
  unfold len, split. pose proof (split_scan_app_length a b []). lia.
Qed.

Lemma page_words_concat (texts : list str) :
  len (split (List.concat texts)) <= fold_right Z.add 0 (map page_words texts).
Proof.
  induction texts as [|x texts IH]; [cbn; lia|].
  cbn [List.concat map fold_right].
  pose proof (split_app_length x (List.concat texts)).
  unfold page_words at 1. lia.
Qed.

(** X6: pages are concatenated with nothing between them, so the word
    count of a document is at most the sum of the word counts of its pages
    (a word may run across a page boundary); a PDF of at most 5 pages whose
    pages' word counts sum to at most 10,000 is therefore accepted. *)
Theorem validate_pdf_accepts_within_page_counts rt file_content doc texts t :
  opens_as rt file_content doc -> extracts_as doc texts -> len doc <= 5 ->
  fold_right Z.add 0 (map page_words texts) <= 10000 ->
  len (split (List.concat texts)) <= fold_right Z.add 0 (map page_words texts)
  /\ fst (validate_pdf rt file_content t)
     = Return (true, lit "PDF is valid.", List.concat texts).
Proof.
  intros Hopen Hx Hpages Hsum.
  pose proof (page_words_concat texts) as Hcount.
  split; [exact Hcount|].
  rewrite (validate_pdf_within_pages _ _ _ _ _ Hopen Hx Hpages).
  destruct (Z.gtb_spec (len (split (List.concat texts))) 10000) as [Hgt|_];
    [lia|reflexivity].
Qed.

Lemma validate_pdf_accepts_within_page_counts_witness :
  len (split (List.concat [lit "over"; lit "lap ping"]))
  <= fold_right Z.add 0 (map page_words [lit "over"; lit "lap ping"])
  /\ fst (validate_pdf
            (runtime_with (Return (pdf_of_pages [lit "over"; lit "lap ping"])))
            [] [])
     = Return (true, lit "PDF is valid.", List.concat [lit "over"; lit "lap ping"]).
Proof.
  assert (Hpages : len (pdf_of_pages [lit "over"; lit "lap ping"]) <= 5)
    by (vm_compute; discriminate).
  assert (Hsum : fold_right Z.add 0 (map page_words [lit "over"; lit "lap ping"])
                 <= 10000)
    by (vm_compute; discriminate).
  exact (validate_pdf_accepts_within_page_counts
           (runtime_with (Return (pdf_of_pages [lit "over"; lit "lap ping"]))) []
           (pdf_of_pages [lit "over"; lit "lap ping"])
           [lit "over"; lit "lap ping"] []
           (opens_with _ []) (pdf_of_pages_extracts _) Hpages Hsum).
Defined.

(** A word that runs across a page boundary counts once: two pages of one
    and two words make a document of two words. *)
Example words_merge_across_pages :
  page_words (lit "over") + page_words (lit "lap ping") = 3
  /\ len (split (List.concat [lit "over"; lit "lap ping"])) = 2.
Proof. split; vm_compute; reflexivity. Qed.

(* ================================================================== *)
(** * More on the answer synthesizer *)

Lemma retrieval_calls_app (t t' : Trace) :
  retrieval_calls (t ++ t') = retrieval_calls t ++ retrieval_calls t'.
Proof. unfold retrieval_calls. apply flat_map_app. Qed.

(** X7: every call of [query_llm_with_rag] retrieves once, for the query
    with [k = top_k]; the model is invoked only after retrieval succeeded,
    then exactly once and with the prompt built from the retrieved
    documents; when retrieval raises, the model is not invoked. *)
Theorem query_llm_with_rag_calls query vector_store llm top_k t :
  retrieval_calls (snd (query_llm_with_rag query vector_store llm top_k t))
  = retrieval_calls t ++ [(query, top_k)]
  /\ (forall e,
        get_relevant_documents vector_store query top_k = Raise e ->
        llm_calls (snd (query_llm_with_rag query vector_store llm top_k t))
        = llm_calls t)
  /\ (forall docs,
        get_relevant_documents vector_store query top_k = Return docs ->
        llm_calls (snd (query_llm_with_rag query vector_store llm top_k t))
        = llm_calls t ++ [rag_prompt (context_of docs) query]).
Proof.
  rewrite query_llm_with_rag_run.
  destruct (get_relevant_documents vector_store query top_k) as [docs|e0].
  - cbv zeta.
    destruct (invoke llm (rag_prompt (context_of docs) query)); cbn [snd].
    + split; [now rewrite retrieval_calls_app|].
      split; [intros e He; discriminate He|].
      intros docs' Hd. injection Hd as <-. now rewrite llm_calls_app.
    + split; [now rewrite retrieval_calls_app|].
      split; [intros e' He; discriminate He|].
      intros docs' Hd. injection Hd as <-. now rewrite llm_calls_app.
  - cbn [snd]. split; [now rewrite retrieval_calls_app|].
    split; [|intros docs Hd; discriminate Hd].
    intros e _. rewrite llm_calls_app. cbn. apply app_nil_r.
Qed.

Lemma query_llm_with_rag_calls_witness :
  llm_calls (snd (query_llm_with_rag (lit "What is the title?")
                    {| get_relevant_documents := fun _ _ => Raise service_down |}
                    (chat_model_answering (Return (lit "unused")))
                    default_top_k []))
  = llm_calls [].
Proof.
  exact (proj1 (proj2 (query_llm_with_rag_calls (lit "What is the title?")
                         {| get_relevant_documents := fun _ _ => Raise service_down |}
                         (chat_model_answering (Return (lit "unused")))
                         default_top_k []))
               service_down eq_refl).
Defined.

Lemma dropwhile_all_space (s : str) : all_space s -> dropwhile isspace s = [].
Proof.
  unfold all_space. induction s as [|c s IH]; [reflexivity|].
  cbn. intros H. apply andb_prop in H as [Hc Hs]. rewrite Hc. now apply IH.
Qed.

Lemma all_space_app (a b : str) : all_space a -> all_space b -> all_space (a ++ b).
Proof. unfold all_space. intros Ha Hb. rewrite forallb_app, Ha, Hb. reflexivity. Qed.

(** [strip] gives the empty string exactly on whitespace-only strings. *)
Lemma strip_empty_iff (s : str) : strip s = [] <-> all_space s.
Proof.
  split.
  - intros Hs. destruct (strip_Trimmed s) as (before & after & Heq & Hb & Ha & _).
    rewrite Hs in Heq. rewrite Heq. now apply all_space_app.
  - intros Hs. unfold strip, lstrip, rstrip.
    now rewrite (dropwhile_all_space _ Hs).
Qed.

(** X8: when retrieval and the model succeed, the answer of
    [query_llm_with_rag] is the empty string exactly when the model's
    response is empty or whitespace only; otherwise it begins and ends with
    a character that is not whitespace. *)
Theorem query_llm_with_rag_blank_answer query vector_store llm top_k t docs
    response :
  get_relevant_documents vector_store query top_k = Return docs ->
  invoke llm (rag_prompt (context_of docs) query) = Return response ->
  exists answer,
    fst (query_llm_with_rag query vector_store llm top_k t) = Return answer
    /\ (answer = [] <-> all_space response)
    /\ (forall c rest, answer = c :: rest -> isspace c = false)
    /\ (forall c front, answer = front ++ [c] -> isspace c = false).
Proof.
  intros Hdocs Hllm. exists (strip response).
  rewrite query_llm_with_rag_run, Hdocs. cbv zeta. rewrite Hllm.
  split; [reflexivity|]. split; [apply strip_empty_iff|].
  destruct (strip_Trimmed response) as (before & after & _ & _ & _ & Hfirst & Hlast).
  split; [exact Hfirst|exact Hlast].
Qed.

Lemma query_llm_with_rag_blank_answer_witness :
  exists answer,
    fst (query_llm_with_rag (lit "What is the title?") (store_of [])
           (chat_model_answering (Return [newline; 32%N; newline]))
           default_top_k [])
    = Return answer
    /\ (answer = [] <-> all_space [newline; 32%N; newline])
    /\ (forall c rest, answer = c :: rest -> isspace c = false)
    /\ (forall c front, answer = front ++ [c] -> isspace c = false).
Proof.
  exact (query_llm_with_rag_blank_answer (lit "What is the title?") (store_of [])
           (chat_model_answering (Return [newline; 32%N; newline]))
           default_top_k [] [] [newline; 32%N; newline] eq_refl eq_refl).
Defined.

(** A response of blank lines gives an empty answer. *)
Example blank_response_gives_empty_answer :
  fst (query_llm_with_rag (lit "What is the title?") (store_of [])
         (chat_model_answering (Return [newline; 32%N; newline]))
         default_top_k [])
  = Return [].
Proof. rewrite query_llm_with_rag_run. vm_compute. reflexivity. Qed.

(* ================================================================== *)
(** * Failures while storing chunks *)



(* ================================================================== *)
(** * Reading a fingerprint back *)

Lemma hex_value_digit (d : Z) : 0 <= d < 16 -> hex_value (Sha256.hex_digit d) = d.
Proof.
  intros Hd.
  assert (Hcases : In d [0; 1; 2; 3; 4; 5; 6; 7; 8; 9; 10; 11; 12; 13; 14; 15]).
  { cbn. lia. }
  repeat (destruct Hcases as [<-|Hcases]; [vm_compute; reflexivity|]).
  destruct Hcases.
Qed.

Lemma unhex_hex_byte (b : Z) (rest : str) :
  0 <= b < 256 -> unhex (Sha256.hex_byte b ++ rest) = b :: unhex rest.
Proof.
  intros Hb. unfold Sha256.hex_byte. cbn [app unhex]. f_equal.
  assert (Hhi : 0 <= Z.shiftr b 4 < 16).
  { rewrite Z.shiftr_div_pow2 by lia. change (2 ^ 4) with 16.
    split; [apply Z.div_pos; lia|apply Z.div_lt_upper_bound; lia]. }
  assert (Hlo : 0 <= Z.land b 15 < 16).
  { change 15 with (Z.ones 4). rewrite Z.land_ones by lia.
    apply Z.mod_pos_bound. lia. }
  rewrite (hex_value_digit _ Hhi), (hex_value_digit _ Hlo).
  rewrite Z.shiftr_div_pow2 by lia. change 15 with (Z.ones 4).
  rewrite Z.land_ones by lia. change (2 ^ 4) with 16.
  pose proof (Z.div_mod b 16). lia.
Qed.

Lemma unhex_hex_bytes (bs : list Z) :
  Forall (fun b => 0 <= b < 256) bs -> unhex (flat_map Sha256.hex_byte bs) = bs.
Proof.
  induction 1 as [|b bs Hb _ IH]; [reflexivity|].
  cbn [flat_map]. now rewrite unhex_hex_byte, IH.
Qed.

(** X10: the fingerprint loses nothing of the digest: reading the 64
    hexadecimal characters back gives the 32 digest bytes, so two files
    have the same fingerprint exactly when they have the same SHA-256
    digest. *)
Theorem get_pdf_hash_reads_back (file_bytes other : bytes) :
  unhex (get_pdf_hash file_bytes) = Sha256.digest (Sha256.sha256 file_bytes)
  /\ (get_pdf_hash file_bytes = get_pdf_hash other
      <-> Sha256.digest (Sha256.sha256 file_bytes)
          = Sha256.digest (Sha256.sha256 other)).
Proof.
  assert (Hback : forall data,
             unhex (get_pdf_hash data) = Sha256.digest (Sha256.sha256 data)).
  { intros data. unfold get_pdf_hash, Sha256.hexdigest.
    apply unhex_hex_bytes, digest_range. }
  split; [apply Hback|]. split.
  - intros Heq. rewrite <- !Hback. now rewrite Heq.
  - intros Heq. unfold get_pdf_hash, Sha256.hexdigest. now rewrite Heq.
Qed.

(* ================================================================== *)
(** * Start-up *)

Lemma str_eqb_eq (a b : str) : str_eqb a b = true <-> a = b.
Proof.
  unfold str_eqb. destruct (list_eq_dec N.eq_dec a b) as [Heq|Hne].
  - tauto.
  - split; [discriminate|contradiction].
Qed.

Lemma py_in_In (x : str) (names : list str) : py_in x names = true <-> In x names.
Proof.
  unfold py_in. rewrite existsb_exists. split.
  - intros (y & Hy & Heq). apply str_eqb_eq in Heq. now subst y.
  - intros Hin. exists x. split; [exact Hin|now apply str_eqb_eq].
Qed.

Lemma py_not_empty (s : str) : py_not s = true <-> s = [].
Proof. destruct s; cbn; split; congruence. Qed.

(** [load_environment], call by call. *)
Lemma load_environment_run (pf : Platform) (t : list SetupEvent) :
  load_environment pf t
  = match st_secrets pf (lit "pinecone") (lit "pineconeapi_key") with
    | Raise e =>
        (Raise e,
         t ++ [LoadDotenv; SecretLookup (lit "pinecone") (lit "pineconeapi_key")])
    | Return pinecone_key =>
        let looked_up :=
          t ++ [LoadDotenv;
                SecretLookup (lit "pinecone") (lit "pineconeapi_key");
                SecretLookup (lit "openai") (lit "openapi_key")] in
        match st_secrets pf (lit "openai") (lit "openapi_key") with
        | Raise e => (Raise e, looked_up)
        | Return openai_key =>
            if py_not pinecone_key || py_not openai_key
            then (Raise missing_keys, looked_up)
            else (Return (pinecone_key, openai_key), looked_up)
        end
    end.
Proof.
  unfold load_environment, setup_bind, setup_call, setup_ret, setup_raise,
    missing_keys.
  destruct (st_secrets pf (lit "pinecone") (lit "pineconeapi_key")) as [p|e];
    [|now rewrite <- app_assoc].
  cbv zeta.
  destruct (st_secrets pf (lit "openai") (lit "openapi_key")) as [o|e];
    [|now rewrite <- !app_assoc].
  destruct (py_not p || py_not o); now rewrite <- !app_assoc.
Qed.

(** X11: [load_environment] never returns an empty key: what it returns
    are the two secrets, both non-empty; when both secrets are read and one
    of them is empty it raises the ValueError "Missing API keys. ..."; and
    when the Pinecone secret cannot be read, that error is raised and the
    OpenAI secret is not looked up. *)
Theorem load_environment_keys (pf : Platform) (t : list SetupEvent) :
  (forall pinecone_key openai_key,
     fst (load_environment pf t) = Return (pinecone_key, openai_key) ->
     pinecone_key <> [] /\ openai_key <> []
     /\ st_secrets pf (lit "pinecone") (lit "pineconeapi_key") = Return pinecone_key
     /\ st_secrets pf (lit "openai") (lit "openapi_key") = Return openai_key)
  /\ (forall pinecone_key openai_key,
        st_secrets pf (lit "pinecone") (lit "pineconeapi_key") = Return pinecone_key ->
        st_secrets pf (lit "openai") (lit "openapi_key") = Return openai_key ->
        pinecone_key = [] \/ openai_key = [] ->
        fst (load_environment pf t) = Raise missing_keys)
  /\ (forall e,
        st_secrets pf (lit "pinecone") (lit "pineconeapi_key") = Raise e ->
        load_environment pf t
        = (Raise e,
           t ++ [LoadDotenv;
                 SecretLookup (lit "pinecone") (lit "pineconeapi_key")])).
Proof.
  rewrite load_environment_run. split; [|split].
  - intros p o Hrun.
    destruct (st_secrets pf (lit "pinecone") (lit "pineconeapi_key")) as [p'|e];
      [|discriminate Hrun].
    cbv zeta in Hrun.
    destruct (st_secrets pf (lit "openai") (lit "openapi_key")) as [o'|e];
      [|discriminate Hrun].
    destruct (py_not p' || py_not o') eqn:Hempty; [discriminate Hrun|].
    cbn [fst] in Hrun. injection Hrun as <- <-.
    apply orb_false_elim in Hempty as [Hp Ho].
    repeat split; try reflexivity.
    + intros ->. discriminate Hp.
    + intros ->. discriminate Ho.
  - intros p o Hp Ho Hempty. rewrite Hp. cbv zeta. rewrite Ho.
    replace (py_not p || py_not o) with true; [reflexivity|].
    symmetry. apply orb_true_iff.
    destruct Hempty as [->| ->]; [left|right]; reflexivity.
  - intros e He. now rewrite He.
Qed.

Lemma load_environment_keys_witness :
  fst (load_environment (platform_with (lit "pc-key") (lit "") []) [])
  = Raise missing_keys.
Proof.
  exact (proj1 (proj2 (load_environment_keys
                         (platform_with (lit "pc-key") (lit "") []) []))
               (lit "pc-key") (lit "") eq_refl eq_refl (or_intror eq_refl)).
Defined.

(** With both keys set, they are returned, Pinecone's first. *)
Example load_environment_returns_keys :
  fst (load_environment (platform_with (lit "pc-key") (lit "oa-key") []) [])
  = Return (lit "pc-key", lit "oa-key").
Proof. rewrite load_environment_run. vm_compute. reflexivity. Qed.

Lemma created_indexes_app (t t' : list SetupEvent) :
  created_indexes (t ++ t') = created_indexes t ++ created_indexes t'.
Proof. unfold created_indexes. apply flat_map_app. Qed.

(** [initialize_pinecone], call by call. *)
Lemma initialize_pinecone_run (pf : Platform) (api_key index_name : str)
    (t : list SetupEvent) :
  let failed e :=
    SetupLogged ERROR (lit "Error initializing Pinecone client: " ++ exn_str e) in
  initialize_pinecone pf api_key index_name t
  = match Pinecone pf api_key with
    | Raise e => (Raise e, t ++ [PineconeInit api_key; failed e])
    | Return pc =>
        match list_index_names pc with
        | Raise e => (Raise e, t ++ [PineconeInit api_key; ListIndexes; failed e])
        | Return names =>
            if py_in index_name names then
              (Return pc,
               t ++ [PineconeInit api_key; ListIndexes;
                     SetupLogged INFO
                       (lit "Index " ++ index_name ++ lit " already exists")])
            else
              match create_index pc (rag_index_spec index_name) with
              | Return _ =>
                  (Return pc,
                   t ++ [PineconeInit api_key; ListIndexes;
                         CreateIndex (rag_index_spec index_name);
                         SetupLogged INFO (lit "Created index: " ++ index_name)])
              | Raise e =>
                  (Raise e,
                   t ++ [PineconeInit api_key; ListIndexes;
                         CreateIndex (rag_index_spec index_name); failed e])
              end
        end
    end.
Proof.
  cbv zeta.
  unfold initialize_pinecone, rag_index_spec, setup_try, setup_bind, setup_log,
    setup_call, setup_ret, setup_raise.
  destruct (Pinecone pf api_key) as [pc|e]; [|now rewrite <- !app_assoc].
  destruct (list_index_names pc) as [names|e]; [|now rewrite <- !app_assoc].
  destruct (py_in index_name names); cbn [negb].
  - now rewrite <- !app_assoc.
  - destruct (create_index pc _) as [[]|e]; now rewrite <- !app_assoc.
Qed.

(** X12: with a client and its list of index names, [initialize_pinecone]
    creates the index exactly when its name is not listed: a listed name is
    reused and nothing is created; a missing one is created once, after the
    listing, with dimension 1536, the cosine metric and the serverless
    region aws us-east-1; and when that creation fails, the error is logged
    and raised, and no client is returned. *)
Theorem initialize_pinecone_creates_missing_index (pf : Platform)
    (api_key index_name : str) (t : list SetupEvent) (pc : PineconeClient)
    (names : list str) :
  Pinecone pf api_key = Return pc -> list_index_names pc = Return names ->
  (In index_name names ->
   initialize_pinecone pf api_key index_name t
   = (Return pc,
      t ++ [PineconeInit api_key; ListIndexes;
            SetupLogged INFO (lit "Index " ++ index_name ++ lit " already exists")])
   /\ created_indexes (snd (initialize_pinecone pf api_key index_name t))
      = created_indexes t)
  /\ (~ In index_name names ->
      (create_index pc (rag_index_spec index_name) = Return tt ->
       initialize_pinecone pf api_key index_name t
       = (Return pc,
          t ++ [PineconeInit api_key; ListIndexes;
                CreateIndex (rag_index_spec index_name);
                SetupLogged INFO (lit "Created index: " ++ index_name)]))
      /\ (forall e,
            create_index pc (rag_index_spec index_name) = Raise e ->
            initialize_pinecone pf api_key index_name t
            = (Raise e,
               t ++ [PineconeInit api_key; ListIndexes;
                     CreateIndex (rag_index_spec index_name);
                     SetupLogged ERROR
                       (lit "Error initializing Pinecone client: " ++ exn_str e)]))
      /\ created_indexes (snd (initialize_pinecone pf api_key index_name t))
         = created_indexes t ++ [rag_index_spec index_name])
  /\ spec_dimension (rag_index_spec index_name) = 1536
  /\ spec_metric (rag_index_spec index_name) = lit "cosine".
Proof.
  intros Hpc Hnames.
  pose proof (initialize_pinecone_run pf api_key index_name t) as Hrun.
  cbv zeta in Hrun. rewrite Hpc, Hnames in Hrun.
  split; [|split; [|split; reflexivity]].
  - intros Hin. apply py_in_In in Hin. rewrite Hin in Hrun.
    split; [exact Hrun|]. rewrite Hrun. cbn [snd].
    rewrite created_indexes_app. cbn. apply app_nil_r.
  - intros Hout.
    assert (Hfalse : py_in index_name names = false).
    { destruct (py_in index_name names) eqn:Hin; [|reflexivity].
      now apply py_in_In in Hin. }
    rewrite Hfalse in Hrun. split; [|split].
    + intros Hcreate. now rewrite Hcreate in Hrun.
    + intros e Hcreate. now rewrite Hcreate in Hrun.
    + rewrite Hrun.
      destruct (create_index pc (rag_index_spec index_name)) as [[]|e];
        cbn [snd]; now rewrite created_indexes_app.
Qed.

Lemma initialize_pinecone_creates_missing_index_witness :
  created_indexes
    (snd (initialize_pinecone (platform_with (lit "pc-key") (lit "oa-key")
                                 [lit "other-index"])
            (lit "pc-key") (lit "rag-index") []))
  = created_indexes [] ++ [rag_index_spec (lit "rag-index")].
Proof.
  assert (Hout : ~ In (lit "rag-index") [lit "other-index"]).
  { intros [H|[]]. vm_compute in H. discriminate H. }
  exact (proj2 (proj2 (proj1 (proj2
           (initialize_pinecone_creates_missing_index
              (platform_with (lit "pc-key") (lit "oa-key") [lit "other-index"])
              (lit "pc-key") (lit "rag-index") []
              (client_with [lit "other-index"]) [lit "other-index"]
              eq_refl eq_refl)) Hout))).
Defined.

(** An index that is listed is not created again. *)
Example existing_index_reused :
  created_indexes
    (snd (initialize_pinecone (platform_with (lit "pc-key") (lit "oa-key")
                                 [lit "other-index"; lit "rag-index"])
            (lit "pc-key") (lit "rag-index") []))
  = [].
Proof. rewrite initialize_pinecone_run. vm_compute. reflexivity. Qed.

(** X13: whatever the platform answers, one call of [initialize_pinecone]
    creates at most one index, and only the one it was asked for, with
    dimension 1536 and the cosine metric; and whenever it raises an error,
    the last thing it did was to log that error. *)
Theorem initialize_pinecone_invariants (pf : Platform) (api_key index_name : str)
    (t : list SetupEvent) :
  (created_indexes (snd (initialize_pinecone pf api_key index_name t))
   = created_indexes t
   \/ created_indexes (snd (initialize_pinecone pf api_key index_name t))
      = created_indexes t ++ [rag_index_spec index_name])
  /\ (forall e,
        fst (initialize_pinecone pf api_key index_name t) = Raise e ->
        exists before,
          snd (initialize_pinecone pf api_key index_name t)
          = before
            ++ [SetupLogged ERROR
                  (lit "Error initializing Pinecone client: " ++ exn_str e)]).
Proof.
  pose proof (initialize_pinecone_run pf api_key index_name t) as Hrun.
  cbv zeta in Hrun. rewrite Hrun. clear Hrun.
  destruct (Pinecone pf api_key) as [pc|e0].
  - destruct (list_index_names pc) as [names|e1].
    + destruct (py_in index_name names).
      * split.
        -- left. cbn [snd]. rewrite created_indexes_app. cbn. apply app_nil_r.
        -- intros e He. discriminate He.
      * destruct (create_index pc (rag_index_spec index_name)) as [[]|e2].
        -- split; [right; cbn [snd]; now rewrite created_indexes_app|].
           intros e He. discriminate He.
        -- split; [right; cbn [snd]; now rewrite created_indexes_app|].
           intros e He. injection He as <-.
           exists (t ++ [PineconeInit api_key; ListIndexes;
                         CreateIndex (rag_index_spec index_name)]).
           cbn [snd]. now rewrite <- app_assoc.
    + split.
      * left. cbn [snd]. rewrite created_indexes_app. cbn. apply app_nil_r.
      * intros e He. injection He as <-.
        exists (t ++ [PineconeInit api_key; ListIndexes]).
        cbn [snd]. now rewrite <- app_assoc.
  - split.
    + left. cbn [snd]. rewrite created_indexes_app. cbn. apply app_nil_r.
    + intros e He. injection He as <-.
      exists (t ++ [PineconeInit api_key]). cbn [snd]. now rewrite <- app_assoc.
Qed.

Lemma initialize_pinecone_invariants_witness :
  exists before,
    snd (initialize_pinecone platform_down (lit "pc-key") (lit "rag-index") [])
    = before
      ++ [SetupLogged ERROR
            (lit "Error initializing Pinecone client: " ++ exn_str service_down)].
Proof.
  exact (proj2 (initialize_pinecone_invariants platform_down (lit "pc-key")
                  (lit "rag-index") [])
               service_down eq_refl).
Defined.

(** [initialize_embeddings] and [initialize_llm] build their client
    with the model "text-embedding-3-small", and with "gpt-4o-mini" at
    temperature 0.7, and the given key, and return what the constructor
    returns; when the constructor raises, the error is logged and the same
    error is raised. *)
Theorem initialize_clients (pf : Platform) (api_key : str) (t : list SetupEvent) :
  let embeddings_call := EmbeddingsInit (lit "text-embedding-3-small") api_key in
  let llm_call := ChatModelInit (lit "gpt-4o-mini") api_key (7 # 10) in
  initialize_embeddings pf api_key t
  = match OpenAIEmbeddings pf (lit "text-embedding-3-small") api_key with
    | Return embeddings => (Return embeddings, t ++ [embeddings_call])
    | Raise e =>
        (Raise e,
         t ++ [embeddings_call;
               SetupLogged ERROR (lit "Error generating embeddings: " ++ exn_str e)])
    end
  /\ initialize_llm pf api_key t
     = match ChatOpenAI pf (lit "gpt-4o-mini") api_key (7 # 10) with
       | Return llm => (Return llm, t ++ [llm_call])
       | Raise e =>
           (Raise e,
            t ++ [llm_call;
                  SetupLogged ERROR (lit "Error initializing LLM: " ++ exn_str e)])
       end.
Proof.
  cbv zeta.
  unfold initialize_embeddings, initialize_llm, setup_try, setup_bind, setup_log,
    setup_call, setup_ret, setup_raise.
  split.
  - destruct (OpenAIEmbeddings pf _ api_key); [reflexivity|].
    now rewrite <- app_assoc.
  - destruct (ChatOpenAI pf _ api_key _); [reflexivity|].
    now rewrite <- app_assoc.
Qed.

(* ================================================================== *)
(** * A file that cannot be read, for the validator and the chunker *)

(** The validator and the chunker meet the same error on a file that does
    not open. *)
Lemma unopened_file_fails_both rt file_content t :
  (exists doc, opens_as rt file_content doc)
  \/ (exists e,
        fst (validate_pdf rt file_content t)
        = Return (false, lit "Error reading PDF: " ++ exn_str e, [])
        /\ forall chunk_size chunk_overlap t',
             fst (process_pdf_and_split rt file_content chunk_size chunk_overlap t')
             = Raise (processing_error e)).
Proof.
  unfold opens_as.
  destruct (import_fitz rt) as [| |fitz] eqn:Himport.
  - right. eexists. split.
    + unfold validate_pdf, _get_pymupdf. rewrite Himport. reflexivity.
    + intros cs co t'.
      unfold process_pdf_and_split, _get_pymupdf. rewrite Himport. reflexivity.
  - right. eexists. split.
    + unfold validate_pdf, _get_pymupdf. rewrite Himport. reflexivity.
    + intros cs co t'.
      unfold process_pdf_and_split, _get_pymupdf. rewrite Himport. reflexivity.
  - destruct (fitz_open fitz file_content) as [doc|e] eqn:Hopen.
    + left. exists doc, fitz. now split.
    + right. exists e. split.
      * unfold validate_pdf, _get_pymupdf. rewrite Himport.
        unfold try_except, bind at 1. unfold ret at 1.
        unfold bind at 1. unfold call at 1. rewrite Hopen. reflexivity.
      * intros cs co t'.
        unfold process_pdf_and_split, _get_pymupdf. rewrite Himport.
        unfold try_except, bind at 1. unfold ret at 1.
        unfold bind at 1. unfold call at 1. rewrite Hopen. reflexivity.
Qed.

(** X14: the validator and the chunker agree on a file that cannot be
    read: when [validate_pdf] rejects a file with "Error reading PDF: "
    and the text of an error, [process_pdf_and_split] on that file raises
    the ValueError "Error processing PDF: " with the text of the same
    error, and returns no chunks. *)
Theorem unreadable_file_fails_chunker rt file_content chunk_size chunk_overlap
    t t' reason :
  fst (validate_pdf rt file_content t)
  = Return (false, lit "Error reading PDF: " ++ reason, []) ->
  exists e,
    exn_str e = reason
    /\ fst (process_pdf_and_split rt file_content chunk_size chunk_overlap t')
       = Raise (processing_error e).
Proof.
  intros Hreject.
  destruct (unopened_file_fails_both rt file_content t)
    as [[doc Hopen]|(e & Hv & Hp)].
  - rewrite (validate_pdf_opened _ _ _ _ Hopen) in Hreject.
    destruct (Z.gtb_spec (len doc) 5) as [Hgt|Hle].
    + apply verdict_message in Hreject.
      now apply page_message_not_error in Hreject.
    + destruct (extracts_or_raises doc)
        as [[texts Hx]|(good & texts & e & rest & -> & Hx)].
      * rewrite (read_pages_extracts _ _ _ _ _ Hx) in Hreject.
        destruct (len (split ([] ++ List.concat texts)) >? 10000).
        -- apply verdict_message in Hreject.
           now apply word_message_not_error in Hreject.
        -- discriminate Hreject.
      * rewrite (read_pages_raises _ _ _ _ _ _ _ Hx) in Hreject.
        apply verdict_message in Hreject. apply app_inv_head in Hreject.
        exists e. split; [exact Hreject|].
        rewrite (process_pdf_and_split_opened _ _ _ _ _ _ Hopen).
        now rewrite (read_pages_raises _ _ _ _ _ _ _ Hx).
  - rewrite Hv in Hreject. apply verdict_message in Hreject.
    apply app_inv_head in Hreject. exists e. split; [exact Hreject|apply Hp].
Qed.

Lemma unreadable_file_fails_chunker_witness :
  exists e,
    exn_str e = exn_str not_a_pdf
    /\ fst (process_pdf_and_split (runtime_with (Raise not_a_pdf)) [] 1000 200 [])
       = Raise (processing_error e).
Proof.
  exact (unreadable_file_fails_chunker (runtime_with (Raise not_a_pdf)) []
           1000 200 [] [] (exn_str not_a_pdf) eq_refl).
Defined.
